(** * GoAPI: route documentation, schema synthesis, validation messages and
      the dependency container, embedded from the Go sources.

  Layout of the development:
  - [GoStrings]    the functions of Go's [strings] the code calls;
  - [Reflect]      what [reflect] shows of a Go value to the schema synthesizer;
  - [Router]       [router.Route], [router.Parameter] and the route options;
  - [Docs]         [goapi.go]: parameter extraction, schema synthesis and the
                   assembly of the [paths] object of the Swagger document;
  - [Validation]   [FormatValidationErrors];
  - [Dependencies] [dependencies.go]: the container, its read/write mutex and
                   the goroutines that share it, as atomic steps;
  - [Spec]         the notions the specification is written in;
  - [Abstract]     the finite view of two goroutines in the singleton closure;
  - [DocsTheory], [ValidationTheory], [DependenciesTheory]: the theorems. *)

From Stdlib Require Import String Ascii List.
From stdpp Require Import base option list gmap strings.

Local Open Scope string_scope.
Local Open Scope list_scope.
Set Warnings "-register-all".

(* ===================================================================== *)
(** ** Go strings *)
(* ===================================================================== *)

Module GoStrings.

(** A Go string is a sequence of bytes; [string] is a list of [ascii]. *)

(** [strings.Split(s, sep)] for a one-byte separator (the source splits on
    "/" and on "," only): as many pieces as separators plus one, empty
    pieces kept, so the empty string gives one empty piece. *)
Fixpoint Split (s : string) (sep : ascii) : list string :=
  match s with
  | EmptyString => [EmptyString]
  | String c rest =>
      if Ascii.eqb c sep then EmptyString :: Split rest sep
      else match Split rest sep with
           | [] => [String c EmptyString]
           | piece :: pieces => String c piece :: pieces
           end
  end.

(** [strings.HasPrefix(s, prefix)]. *)
Definition HasPrefix (s prefix : string) : bool := String.prefix prefix s.

(** [s[1:]]; the source takes it only behind [HasPrefix(s, ":")]. *)
Definition from1 (s : string) : string :=
  match s with
  | EmptyString => EmptyString
  | String _ rest => rest
  end.

(** [strings.Join(pieces, sep)]. *)
Fixpoint Join (pieces : list string) (sep : string) : string :=
  match pieces with
  | [] => EmptyString
  | [p] => p
  | p :: rest => p +:+ sep +:+ Join rest sep
  end.

Definition lower_byte (c : ascii) : ascii :=
  let n := nat_of_ascii c in
  if (65 <=? n)%nat && (n <=? 90)%nat then ascii_of_nat (n + 32) else c.

(** [strings.ToLower] on ASCII text (HTTP methods are ASCII): the letters
    A-Z are lowered, every other byte is kept. *)
Fixpoint ToLower (s : string) : string :=
  match s with
  | EmptyString => EmptyString
  | String c rest => String (lower_byte c) (ToLower rest)
  end.

End GoStrings.

(* ===================================================================== *)
(** ** Reflection *)
(* ===================================================================== *)

Module Reflect.

(** [reflect.Kind]. *)
Inductive Kind : Set :=
| Invalid | Bool
| Int | Int8 | Int16 | Int32 | Int64
| Uint | Uint8 | Uint16 | Uint32 | Uint64 | Uintptr
| Float32 | Float64 | Complex64 | Complex128
| Array | Chan | Func | Interface | Map | Ptr | Slice | String | Struct
| UnsafePointer.

(** The kinds of the values that are neither pointers nor structs. *)
Inductive BasicKind : Set :=
| BBool
| BInt | BInt8 | BInt16 | BInt32 | BInt64
| BUint | BUint8 | BUint16 | BUint32 | BUint64 | BUintptr
| BFloat32 | BFloat64 | BComplex64 | BComplex128
| BArray | BChan | BFunc | BInterface | BMap | BSlice | BString
| BUnsafePointer.

Definition kind_of_basic (b : BasicKind) : Kind :=
  match b with
  | BBool => Bool
  | BInt => Int | BInt8 => Int8 | BInt16 => Int16 | BInt32 => Int32
  | BInt64 => Int64
  | BUint => Uint | BUint8 => Uint8 | BUint16 => Uint16 | BUint32 => Uint32
  | BUint64 => Uint64 | BUintptr => Uintptr
  | BFloat32 => Float32 | BFloat64 => Float64
  | BComplex64 => Complex64 | BComplex128 => Complex128
  | BArray => Array | BChan => Chan | BFunc => Func
  | BInterface => Interface | BMap => Map | BSlice => Slice
  | BString => String
  | BUnsafePointer => UnsafePointer
  end.

(** [reflect.StructField]: the declared name and the struct tag, the tag
    as its key/value pairs in the order they are written. *)
Record StructField : Type := mkStructField {
  Name : string;
  Tag : list (string * string)
}.

(** [StructTag.Get(key)]: the value of the first pair with that key, the
    empty string when there is none. *)
Fixpoint Tag_Get (tag : list (string * string)) (key : string) : string :=
  match tag with
  | [] => ""
  | (k, v) :: rest => if String.eqb k key then v else Tag_Get rest key
  end.

(** A Go value as the synthesizer sees it through [reflect.ValueOf]: its
    kind, for a pointer whether it is nil and what it points to, for a
    struct its fields in declaration order. *)
Inductive Value : Type :=
| Basic (k : BasicKind)
| Pointer (pointee : option Value)
| Record_ (fields : list (StructField * Value)).

Definition Kind_of (v : Value) : Kind :=
  match v with
  | Basic b => kind_of_basic b
  | Pointer _ => Ptr
  | Record_ _ => Struct
  end.

End Reflect.

(* ===================================================================== *)
(** ** router.go *)
(* ===================================================================== *)

Module Router.

(** [router.Parameter] ([Parameter] is reserved here, hence the underscore);
    [Schema] is an [interface{}], [None] is nil. *)
Record Parameter_ : Type := mkParameter {
  Name : string;
  In : string;
  Type_ : string;
  Format : string;
  Required : bool;
  Description : string;
  Schema : option Reflect.Value
}.

(** [router.Route]. The handler is never inspected and is left out. *)
Record Route : Type := mkRoute {
  Method : string;
  Path : string;
  Tags : list string;
  Summary : string;
  Description_ : string;
  Responses : gmap nat string;
  Parameters : list Parameter_
}.

Definition RouteOption : Type := Route -> Route.

Definition WithTags (tags : list string) : RouteOption := fun route =>
  mkRoute (Method route) (Path route) (Tags route ++ tags) (Summary route)
          (Description_ route) (Responses route) (Parameters route).

Definition WithSummary (summary : string) : RouteOption := fun route =>
  mkRoute (Method route) (Path route) (Tags route) summary
          (Description_ route) (Responses route) (Parameters route).

Definition WithDescription (description : string) : RouteOption := fun route =>
  mkRoute (Method route) (Path route) (Tags route) (Summary route)
          description (Responses route) (Parameters route).

Definition WithResponse (statusCode : nat) (description : string)
  : RouteOption := fun route =>
  mkRoute (Method route) (Path route) (Tags route) (Summary route)
          (Description_ route) (<[statusCode := description]> (Responses route))
          (Parameters route).

Definition WithParameter (name in_ paramType description : string)
           (required : bool) : RouteOption := fun route =>
  let newParameter := mkParameter name in_ paramType "" required description None in
  mkRoute (Method route) (Path route) (Tags route) (Summary route)
          (Description_ route) (Responses route)
          (Parameters route ++ [newParameter]).

Definition WithPathParameter (name paramType description : string) : RouteOption :=
  WithParameter name "path" paramType description true.

Definition WithQueryParameter (name paramType description : string)
           (required : bool) : RouteOption :=
  WithParameter name "query" paramType description required.

Definition WithRequestBody (schema : option Reflect.Value) (description : string)
  : RouteOption := fun route =>
  let bodyParameter := mkParameter "body" "body" "" "" true description schema in
  mkRoute (Method route) (Path route) (Tags route) (Summary route)
          (Description_ route) (Responses route)
          (Parameters route ++ [bodyParameter]).

Definition WithJSONSchema (example : option Reflect.Value) (description : string)
  : RouteOption := WithRequestBody example description.

End Router.

(* ===================================================================== *)
(** ** goapi.go: the documentation generator *)
(* ===================================================================== *)

Module Docs.
Import GoStrings.

(** *** The objects of the document

    The source builds every object as a [map[string]interface{}]. Each
    record below is one such object, a field of type [option] being a key
    that the code sets on some paths only. *)

(** The object [getFieldSchema] returns: keys "example", "type", "format"
    and "items" (itself the object [{"type": ...}]). *)
Record FieldSchema : Type := mkFieldSchema {
  fs_example : option string;
  fs_type : option string;
  fs_format : option string;
  fs_items : option string
}.

(** The object [generateSchemaFromStruct] returns: keys "type",
    "properties", "example" (the example value itself) and "required". *)
Record SchemaDoc : Type := mkSchemaDoc {
  sd_type : string;
  sd_properties : gmap string FieldSchema;
  sd_example : option Reflect.Value;
  sd_required : option (list string)
}.

(** One element of an operation's "parameters". *)
Record ParameterDoc : Type := mkParameterDoc {
  pd_name : string;
  pd_in : string;
  pd_required : bool;
  pd_description : string;
  pd_type : option string;
  pd_format : option string;
  pd_schema : option SchemaDoc
}.

(** One entry of "responses": its "description" and the "type" of its
    "schema". *)
Record ResponseDoc : Type := mkResponseDoc {
  rd_description : string;
  rd_schema_type : string
}.

(** An operation of a path item. *)
Record Operation : Type := mkOperation {
  op_summary : string;
  op_description : string;
  op_tags : list string;
  op_parameters : list ParameterDoc;
  op_responses : gmap string ResponseDoc
}.

Record Contact : Type := mkContact {
  contact_Name : string; contact_URL : string; contact_Email : string
}.

Record License : Type := mkLicense {
  license_Name : string; license_URL : string
}.

Record APIConfig : Type := mkAPIConfig {
  Title : string;
  Description : string;
  Version : string;
  BasePath : string;
  Host : string;
  Schemes : list string;
  Contact_ : Contact;
  License_ : License;
  Debug : bool
}.

Definition DefaultConfig : APIConfig :=
  mkAPIConfig "GoAPI" "API created with GoAPI framework" "1.0.0" ""
              "localhost:8080" ["http"]
              (mkContact "API Support" "https://github.com/esteban-ll-aguilar/goapi"
                         "support@example.com")
              (mkLicense "MIT" "https://opensource.org/licenses/MIT")
              true.

(** The part of [GoAPI] the generator reads: the configuration and the
    routes in registration order. *)
Record GoAPI : Type := mkGoAPI {
  config : APIConfig;
  routes : list Router.Route
}.

(** The document [getSwaggerJSON] marshals; "paths" maps a path to its
    path item, a map from the lower-case method to the operation. The
    rendering of this object by [json.MarshalIndent] is not modelled. *)
Record SwaggerDoc : Type := mkSwaggerDoc {
  swagger : string;
  info_title : string;
  info_description : string;
  info_version : string;
  info_contact : Contact;
  info_license : License;
  host : string;
  basePath : string;
  schemes : list string;
  paths : gmap string (gmap string Operation)
}.

(** *** AddRoute *)

Definition AddRoute (apiInstance : GoAPI) (method path : string)
           (opts : list Router.RouteOption) : GoAPI :=
  let newRoute := Router.mkRoute method path [] "" "" ∅ [] in
  let newRoute := fold_left (fun route routeOption => routeOption route) opts newRoute in
  mkGoAPI (config apiInstance) (routes apiInstance ++ [newRoute]).

(** *** convertToOpenAPIPath *)

Definition convertToOpenAPIPath (path : string) : string :=
  let segments := Split path "/" in
  let segments :=
    map (fun segment =>
           if HasPrefix segment ":" then "{" +:+ from1 segment +:+ "}"
           else segment) segments in
  Join segments "/".

(** *** extractParameters *)

Definition set_pd_description (d : string) (p : ParameterDoc) : ParameterDoc :=
  mkParameterDoc (pd_name p) (pd_in p) (pd_required p) d (pd_type p)
                 (pd_format p) (pd_schema p).

Definition set_pd_type (t : string) (p : ParameterDoc) : ParameterDoc :=
  mkParameterDoc (pd_name p) (pd_in p) (pd_required p) (pd_description p)
                 (Some t) (pd_format p) (pd_schema p).

Definition set_pd_format (f : string) (p : ParameterDoc) : ParameterDoc :=
  mkParameterDoc (pd_name p) (pd_in p) (pd_required p) (pd_description p)
                 (pd_type p) (Some f) (pd_schema p).

Definition set_pd_schema (s : SchemaDoc) (p : ParameterDoc) : ParameterDoc :=
  mkParameterDoc (pd_name p) (pd_in p) (pd_required p) (pd_description p)
                 (pd_type p) (pd_format p) (Some s).

(** The body of the loop for a segment that starts with ":". *)
Definition pathParameter (segment : string) : ParameterDoc :=
  let paramName := from1 segment in
  let parameter :=
    mkParameterDoc paramName "path" true ("ID del " +:+ paramName)
                   (Some "string") None None in
  if String.eqb paramName "id" then
    set_pd_format "int64"
      (set_pd_type "integer" (set_pd_description "ID del recurso" parameter))
  else if String.eqb paramName "userId" || String.eqb paramName "user_id" then
    set_pd_format "int64"
      (set_pd_type "integer" (set_pd_description "ID del usuario" parameter))
  else
    set_pd_description ("Parรกmetro " +:+ paramName) parameter.

Definition extractParameters (path : string) : list ParameterDoc :=
  let segments := Split path "/" in
  fold_left
    (fun parameters segment =>
       if HasPrefix segment ":" then parameters ++ [pathParameter segment]
       else parameters)
    segments [].

(** *** getFieldSchema *)

Definition set_fs_example (e : string) (f : FieldSchema) : FieldSchema :=
  mkFieldSchema (Some e) (fs_type f) (fs_format f) (fs_items f).

Definition set_fs_type (t : string) (f : FieldSchema) : FieldSchema :=
  mkFieldSchema (fs_example f) (Some t) (fs_format f) (fs_items f).

Definition set_fs_format (x : string) (f : FieldSchema) : FieldSchema :=
  mkFieldSchema (fs_example f) (fs_type f) (Some x) (fs_items f).

Definition set_fs_items (t : string) (f : FieldSchema) : FieldSchema :=
  mkFieldSchema (fs_example f) (fs_type f) (fs_format f) (Some t).

Fixpoint getFieldSchema (fieldValue : Reflect.Value) (field : Reflect.StructField)
  : FieldSchema :=
  let fieldSchema := mkFieldSchema None None None None in
  let example := Reflect.Tag_Get (Reflect.Tag field) "example" in
  let fieldSchema :=
    if negb (String.eqb example "") then set_fs_example example fieldSchema
    else fieldSchema in
  match Reflect.Kind_of fieldValue with
  | Reflect.String => set_fs_type "string" fieldSchema
  | Reflect.Int | Reflect.Int8 | Reflect.Int16 | Reflect.Int32 | Reflect.Int64 =>
      set_fs_format "int64" (set_fs_type "integer" fieldSchema)
  | Reflect.Uint | Reflect.Uint8 | Reflect.Uint16 | Reflect.Uint32
  | Reflect.Uint64 =>
      set_fs_format "int64" (set_fs_type "integer" fieldSchema)
  | Reflect.Float32 | Reflect.Float64 =>
      let fieldSchema := set_fs_type "number" fieldSchema in
      match Reflect.Kind_of fieldValue with
      | Reflect.Float32 => set_fs_format "float" fieldSchema
      | _ => set_fs_format "double" fieldSchema
      end
  | Reflect.Bool => set_fs_type "boolean" fieldSchema
  | Reflect.Slice | Reflect.Array =>
      set_fs_items "string" (set_fs_type "array" fieldSchema)
  | Reflect.Ptr =>
      match fieldValue with
      | Reflect.Pointer (Some elem) => getFieldSchema elem field
      | _ => set_fs_type "string" fieldSchema
      end
  | _ => set_fs_type "string" fieldSchema
  end.

(** *** generateSchemaFromStruct *)

(** The loop over [parts[1:]] that looks for "omitempty". *)
Fixpoint isOptional (parts : list string) : bool :=
  match parts with
  | [] => false
  | part :: rest => if String.eqb part "omitempty" then true else isOptional rest
  end.

(** One iteration of the loop over the fields: [properties] and
    [required] before, and after. *)
Definition fieldStep (acc : gmap string FieldSchema * list string)
           (f : Reflect.StructField * Reflect.Value)
  : gmap string FieldSchema * list string :=
  let '(properties, required) := acc in
  let '(field, fieldValue) := f in
  let jsonTag := Reflect.Tag_Get (Reflect.Tag field) "json" in
  let fieldName := Reflect.Name field in
  let '(fieldName, required) :=
    if negb (String.eqb jsonTag "") && negb (String.eqb jsonTag "-") then
      let parts := Split jsonTag "," in
      let fieldName :=
        if negb (String.eqb (hd "" parts) "") then hd "" parts else fieldName in
      if negb (isOptional (tl parts)) then (fieldName, required ++ [fieldName])
      else (fieldName, required)
    else (fieldName, required ++ [fieldName]) in
  let fieldSchema := getFieldSchema fieldValue field in
  (<[fieldName := fieldSchema]> properties, required).

Definition generateSchemaFromStruct (example : option Reflect.Value) : SchemaDoc :=
  let schema := mkSchemaDoc "object" ∅ None None in
  match example with
  | None => schema
  | Some ex =>
      let schema := mkSchemaDoc (sd_type schema) (sd_properties schema) (Some ex)
                                (sd_required schema) in
      let v :=
        match ex with
        | Reflect.Pointer (Some pointee) => pointee
        | _ => ex
        end in
      match v with
      | Reflect.Record_ fields =>
          let '(properties, required) := fold_left fieldStep fields (∅, []) in
          let schema := mkSchemaDoc (sd_type schema) properties (sd_example schema)
                                    (sd_required schema) in
          if (0 <? length required)%nat then
            mkSchemaDoc (sd_type schema) (sd_properties schema) (sd_example schema)
                        (Some required)
          else schema
      | _ => schema
      end
  end.

(** *** getRouteParameters *)

(** The body of the loop over the parameters the caller declared. *)
Definition explicitParameter (param : Router.Parameter_) : ParameterDoc :=
  let parameter :=
    mkParameterDoc (Router.Name param) (Router.In param) (Router.Required param)
                   (Router.Description param) None None None in
  if String.eqb (Router.In param) "body" && bool_decide (Router.Schema param <> None)
  then set_pd_schema (generateSchemaFromStruct (Router.Schema param)) parameter
  else
    let parameter := set_pd_type (Router.Type_ param) parameter in
    if negb (String.eqb (Router.Format param) "")
    then set_pd_format (Router.Format param) parameter
    else parameter.

Definition getRouteParameters (route : Router.Route) : list ParameterDoc :=
  let parameters :=
    fold_left (fun parameters param => parameters ++ [explicitParameter param])
              (Router.Parameters route) [] in
  if (length (Router.Parameters route) =? 0)%nat
  then extractParameters (Router.Path route)
  else parameters.

(** *** getSwaggerJSON *)

(** The paths of the documentation's own routes, which the loop skips. *)
Definition isDocumentationPath (path : string) : bool :=
  String.eqb path "/" || String.eqb path "/docs" || String.eqb path "/redoc"
  || String.eqb path "/swagger/*any" || String.eqb path "/redoc/index.html"
  || String.eqb path "/openapi.json" || String.eqb path "/docs-static/*filepath".

Definition defaultResponses : gmap string ResponseDoc :=
  {[ "200" := mkResponseDoc "Successful response" "object" ]}.

(** The operation the loop builds for a route, fallbacks included. *)
Definition operationOf (route : Router.Route) : Operation :=
  let operation :=
    mkOperation (Router.Summary route) (Router.Description_ route)
                (Router.Tags route) (getRouteParameters route) defaultResponses in
  let operation :=
    if String.eqb (Router.Summary route) ""
    then mkOperation "API endpoint" (op_description operation) (op_tags operation)
                     (op_parameters operation) (op_responses operation)
    else operation in
  let operation :=
    if String.eqb (Router.Description_ route) ""
    then mkOperation (op_summary operation) "API endpoint description"
                     (op_tags operation) (op_parameters operation)
                     (op_responses operation)
    else operation in
  if (length (Router.Tags route) =? 0)%nat
  then mkOperation (op_summary operation) (op_description operation) ["default"]
                   (op_parameters operation) (op_responses operation)
  else operation.

(** One iteration of the loop over the routes. *)
Definition routeStep (paths : gmap string (gmap string Operation))
           (route : Router.Route) : gmap string (gmap string Operation) :=
  if isDocumentationPath (Router.Path route) then paths
  else
    let openAPIPath := convertToOpenAPIPath (Router.Path route) in
    let pathItem :=
      match paths !! openAPIPath with
      | Some item => item
      | None => ∅
      end in
    let operation := operationOf route in
    let methodLower := ToLower (Router.Method route) in
    <[openAPIPath := <[methodLower := operation]> pathItem]> paths.

Definition getSwaggerJSON (a : GoAPI) : SwaggerDoc :=
  let paths := fold_left routeStep (routes a) ∅ in
  mkSwaggerDoc "2.0" (Title (config a)) (Description (config a))
               (Version (config a)) (Contact_ (config a)) (License_ (config a))
               (Host (config a)) (BasePath (config a)) (Schemes (config a))
               paths.

End Docs.

(* ===================================================================== *)
(** ** validation: FormatValidationErrors *)
(* ===================================================================== *)

Module Validation.

(** What [FormatValidationErrors] reads of a [validator.FieldError]:
    [Field()], [Tag()], [Param()] and the [%v] rendering of [Value()]. *)
Record FieldError : Type := mkFieldError {
  fe_Field : string;
  fe_Tag : string;
  fe_Param : string;
  fe_ValueText : string
}.

(** The [error] handed to the formatter: nil, the validator's
    [ValidationErrors] (a slice of field errors), or any other error. *)
Inductive GoError : Type :=
| NilError
| ValidatorErrors (fieldErrors : list FieldError)
| OtherError (message : string).

Record ValidationError : Type := mkValidationError {
  Field : string;
  Tag : string;
  Value : string;
  Message : string
}.

Definition ValidationErrors : Type := list ValidationError.

(** The [switch] on the tag. *)
Definition messageFor (fieldError : FieldError) : string :=
  let tag := fe_Tag fieldError in
  let field := fe_Field fieldError in
  let param := fe_Param fieldError in
  if String.eqb tag "required" then
    "El campo '" +:+ field +:+ "' es requerido"
  else if String.eqb tag "min" then
    "El campo '" +:+ field +:+ "' debe tener un valor mínimo de " +:+ param
  else if String.eqb tag "max" then
    "El campo '" +:+ field +:+ "' debe tener un valor máximo de " +:+ param
  else if String.eqb tag "email" then
    "El campo '" +:+ field +:+ "' debe ser un email válido"
  else if String.eqb tag "url" then
    "El campo '" +:+ field +:+ "' debe ser una URL válida"
  else if String.eqb tag "len" then
    "El campo '" +:+ field +:+ "' debe tener exactamente " +:+ param +:+ " caracteres"
  else if String.eqb tag "gte" then
    "El campo '" +:+ field +:+ "' debe ser mayor o igual a " +:+ param
  else if String.eqb tag "lte" then
    "El campo '" +:+ field +:+ "' debe ser menor o igual a " +:+ param
  else
    "El campo '" +:+ field +:+ "' no cumple con la validación '" +:+ tag +:+ "'".

Definition FormatValidationErrors (err : GoError) : ValidationErrors :=
  match err with
  | ValidatorErrors validatorErrors =>
      fold_left
        (fun validationErrors fieldError =>
           let validationError :=
             mkValidationError (fe_Field fieldError) (fe_Tag fieldError)
                               (fe_ValueText fieldError) (messageFor fieldError) in
           validationErrors ++ [validationError])
        validatorErrors []
  | _ => []
  end.

End Validation.

(* ===================================================================== *)
(** ** dependencies.go: the dependency container *)
(* ===================================================================== *)

Module Dependencies.

(** *** Types, instances, errors *)

(** A [reflect.Type] as far as the container looks at it: a pointer type
    [*T], or a type of any other kind, known by its name. *)
Inductive rtype : Type :=
| Named (name : string)
| PtrTo (elem : rtype).

Fixpoint rtype_depth (t : rtype) : nat :=
  match t with
  | Named _ => 0
  | PtrTo e => S (rtype_depth e)
  end.

Fixpoint rtype_name (t : rtype) : string :=
  match t with
  | Named n => n
  | PtrTo e => rtype_name e
  end.

(** [Type.String()]. *)
Fixpoint String_ (t : rtype) : string :=
  match t with
  | Named n => n
  | PtrTo e => "*" +:+ String_ e
  end.

#[export] Instance rtype_eq_dec : EqDecision rtype.
Proof. solve_decision. Defined.

#[export] Instance rtype_countable : Countable rtype.
Proof.
  refine (inj_countable' (fun t => (rtype_depth t, rtype_name t))
                         (fun p => Nat.iter (fst p) PtrTo (Named (snd p))) _).
  intros t. induction t as [n | e IH]; simpl in *; congruence.
Defined.

(** An [interface{}] a provider returns: nil, or an object of some
    dynamic type; [addr] tells two objects apart (reference equality). *)
Inductive Instance : Type :=
| NilInstance
| Obj (t : rtype) (addr : nat).

#[export] Instance Instance_eq_dec : EqDecision Instance.
Proof. solve_decision. Defined.

(** An [error]: made by [fmt.Errorf] from a message, or wrapping a cause
    with [%w] behind a prefix. *)
Inductive error : Type :=
| Errorf (message : string)
| Wrapf (prefix : string) (cause : error).

(** [err.Error()]. *)
Fixpoint Error (e : error) : string :=
  match e with
  | Errorf m => m
  | Wrapf p c => p +:+ Error c
  end.

(** What a call of a [DependencyProvider] gives back: an instance with a
    nil error, or an error. *)
Inductive Outcome : Type :=
| Returns (instance : Instance)
| Fails (err : error).

(** The [*gin.Context] of a request; providers may read it. *)
Definition Ctx : Type := nat.

(** A provider the user wrote. It is a Go closure and may keep state: its
    result depends on the context and on how many times it was invoked
    before. [uid] names it in the log of invocations. *)
Record UserProvider : Type := mkUserProvider {
  uid : nat;
  behaviour : Ctx -> nat -> Outcome
}.

(** A value of the [providers] map: the user's provider as [Register]
    stores it, or the memoizing closure [RegisterSingleton] builds around
    it, which captures [targetType] and [provider]. *)
Inductive Provider : Type :=
| Plain (provider : UserProvider)
| Memoizing (targetType : rtype) (provider : UserProvider).

(** *** The container and its mutex *)

Inductive WriterState : Set :=
| NoWriter        (* no [Lock] in progress *)
| WriterWaiting   (* a [Lock] has announced itself and waits for the readers *)
| WriterHolds.    (* the write lock is held *)

(** [sync.RWMutex]: the number of read locks held and the writer. *)
Record RWMutex : Type := mkRWMutex {
  readers : nat;
  writer : WriterState
}.

(** [DependencyContainer], with the log of the user providers invoked so
    far (by [uid], oldest first). *)
Record Container : Type := mkContainer {
  providers : gmap rtype Provider;
  instances : gmap rtype Instance;
  mutex : RWMutex;
  calls : list nat
}.

Definition NewDependencyContainer : Container :=
  mkContainer ∅ ∅ (mkRWMutex 0 NoWriter) [].

Definition set_mutex (m : RWMutex) (dc : Container) : Container :=
  mkContainer (providers dc) (instances dc) m (calls dc).

(** *** Code as a sequence of atomic actions on the container

    A goroutine's code is a tree of actions, each one atomic step on the
    shared container; the continuation of a read takes what was read. *)
Inductive prog (A : Type) : Type :=
| Ret (a : A)
| Panic (message : string)
| RLock (k : prog A)
| RUnlock (k : prog A)
| Lock (k : prog A)
| LockWait (k : prog A)
| Unlock (k : prog A)
| LoadProvider (t : rtype) (k : option Provider -> prog A)
| StoreProvider (t : rtype) (p : Provider) (k : prog A)
| LoadInstance (t : rtype) (k : option Instance -> prog A)
| StoreInstance (t : rtype) (i : Instance) (k : prog A)
| Call (u : UserProvider) (c : Ctx) (k : Outcome -> prog A).

Arguments Ret {A} a.
Arguments Panic {A} message.
Arguments RLock {A} k.
Arguments RUnlock {A} k.
Arguments Lock {A} k.
Arguments LockWait {A} k.
Arguments Unlock {A} k.
Arguments LoadProvider {A} t k.
Arguments StoreProvider {A} t p k.
Arguments LoadInstance {A} t k.
Arguments StoreInstance {A} t i k.
Arguments Call {A} u c k.

Fixpoint bind {A B : Type} (m : prog A) (f : A -> prog B) : prog B :=
  match m with
  | Ret a => f a
  | Panic msg => Panic msg
  | RLock k => RLock (bind k f)
  | RUnlock k => RUnlock (bind k f)
  | Lock k => Lock (bind k f)
  | LockWait k => LockWait (bind k f)
  | Unlock k => Unlock (bind k f)
  | LoadProvider t k => LoadProvider t (fun o => bind (k o) f)
  | StoreProvider t p k => StoreProvider t p (bind k f)
  | LoadInstance t k => LoadInstance t (fun o => bind (k o) f)
  | StoreInstance t i k => StoreInstance t i (bind k f)
  | Call u c k => Call u c (fun r => bind (k r) f)
  end.

(** How many times the provider named [id] was invoked. *)
Definition invocations (id : nat) (log : list nat) : nat :=
  length (filter (fun x => x = id) log).

(** One atomic step of a goroutine; [None] when it cannot move: it has
    returned or panicked, or it waits for the mutex.
    - [RLock] waits while a writer holds the lock or waits for it;
    - [Lock] first excludes the other writers and announces itself
      ([WriterWaiting]), then ([LockWait]) waits until no reader is left;
    - unlocking a mutex that is not locked is a fatal error. *)
Definition step {A : Type} (dc : Container) (p : prog A)
  : option (Container * prog A) :=
  match p with
  | Ret _ => None
  | Panic _ => None
  | RLock k =>
      match writer (mutex dc) with
      | NoWriter =>
          Some (set_mutex (mkRWMutex (S (readers (mutex dc))) NoWriter) dc, k)
      | _ => None
      end
  | RUnlock k =>
      match readers (mutex dc) with
      | S n => Some (set_mutex (mkRWMutex n (writer (mutex dc))) dc, k)
      | O => Some (dc, Panic "sync: RUnlock of unlocked RWMutex")
      end
  | Lock k =>
      match writer (mutex dc) with
      | NoWriter =>
          Some (set_mutex (mkRWMutex (readers (mutex dc)) WriterWaiting) dc,
                LockWait k)
      | _ => None
      end
  | LockWait k =>
      match readers (mutex dc) with
      | O => Some (set_mutex (mkRWMutex 0 WriterHolds) dc, k)
      | S _ => None
      end
  | Unlock k =>
      match writer (mutex dc) with
      | WriterHolds =>
          Some (set_mutex (mkRWMutex (readers (mutex dc)) NoWriter) dc, k)
      | _ => Some (dc, Panic "sync: Unlock of unlocked RWMutex")
      end
  | LoadProvider t k => Some (dc, k (providers dc !! t))
  | StoreProvider t p k =>
      Some (mkContainer (<[t := p]> (providers dc)) (instances dc) (mutex dc)
                        (calls dc), k)
  | LoadInstance t k => Some (dc, k (instances dc !! t))
  | StoreInstance t i k =>
      Some (mkContainer (providers dc) (<[t := i]> (instances dc)) (mutex dc)
                        (calls dc), k)
  | Call u c k =>
      Some (mkContainer (providers dc) (instances dc) (mutex dc)
                        (calls dc ++ [uid u]),
            k (behaviour u c (invocations (uid u) (calls dc))))
  end.

(** A goroutine running alone for at most [fuel] steps. *)
Fixpoint exec {A : Type} (fuel : nat) (dc : Container) (p : prog A)
  : Container * prog A :=
  match fuel with
  | O => (dc, p)
  | S fuel' =>
      match step dc p with
      | Some (dc', p') => exec fuel' dc' p'
      | None => (dc, p)
      end
  end.

(** Goroutines sharing the container, and a schedule: the list of the
    goroutines picked in turn; picking one that cannot move is a no-op. *)
Definition Config (A : Type) : Type := Container * list (prog A).

Definition pick {A : Type} (cfg : Config A) (i : nat) : Config A :=
  match snd cfg !! i with
  | Some p =>
      match step (fst cfg) p with
      | Some (dc', p') => (dc', <[i := p']> (snd cfg))
      | None => cfg
      end
  | None => cfg
  end.

Definition run {A : Type} (schedule : list nat) (cfg : Config A) : Config A :=
  fold_left pick schedule cfg.

(** *** Register, RegisterSingleton, Resolve *)

(** The key of a registration: [reflect.TypeOf(target)], a pointer type
    replaced by its element type. *)
Definition registrationKey (targetType : rtype) : rtype :=
  match targetType with
  | PtrTo elem => elem
  | Named _ => targetType
  end.

(** [target] is the dynamic type of the [interface{}] passed, [None] for
    a nil interface, whose [reflect.TypeOf] is nil. The deferred unlock
    runs on every way out. *)
Definition Register (provider : UserProvider) (target : option rtype) : prog unit :=
  Lock
    match target with
    | None => Unlock (Panic "invalid memory address or nil pointer dereference")
    | Some targetType =>
        StoreProvider (registrationKey targetType) (Plain provider)
                      (Unlock (Ret tt))
    end.

Definition RegisterSingleton (provider : UserProvider) (target : option rtype)
  : prog unit :=
  Lock
    match target with
    | None => Unlock (Panic "invalid memory address or nil pointer dereference")
    | Some targetType =>
        let targetType := registrationKey targetType in
        StoreProvider targetType (Memoizing targetType provider)
                      (Unlock (Ret tt))
    end.

(** The closure [RegisterSingleton] stores. *)
Definition memoizing (targetType : rtype) (provider : UserProvider) (c : Ctx)
  : prog Outcome :=
  RLock
    (LoadInstance targetType (fun cached =>
       match cached with
       | Some instance => RUnlock (Ret (Returns instance))
       | None =>
           RUnlock
             (Lock
                (LoadInstance targetType (fun cached =>
                   match cached with
                   | Some instance => Unlock (Ret (Returns instance))
                   | None =>
                       Call provider c (fun result =>
                         match result with
                         | Fails err => Unlock (Ret (Fails err))
                         | Returns instance =>
                             StoreInstance targetType instance
                               (Unlock (Ret (Returns instance)))
                         end)
                   end)))
       end)).

(** Calling a value of the [providers] map. *)
Definition invoke (p : Provider) (c : Ctx) : prog Outcome :=
  match p with
  | Plain provider => Call provider c Ret
  | Memoizing targetType provider => memoizing targetType provider c
  end.

(** [Value.Set] accepts the instance when its type is the element type
    (interface-typed targets are not modelled); a nil interface has no
    type and is refused. *)
Definition assignable (instance : Instance) (elementType : rtype) : bool :=
  match instance with
  | NilInstance => false
  | Obj t _ => bool_decide (t = elementType)
  end.

(** [Resolve(c, target)]. [target] is the dynamic type of the argument.
    The result is [Returns instance] when nil is returned and [instance]
    was stored through the target, [Fails err] when [err] is returned. *)
Definition Resolve (c : Ctx) (target : option rtype) : prog Outcome :=
  RLock
    match target with
    | None => RUnlock (Panic "invalid memory address or nil pointer dereference")
    | Some (Named _) => RUnlock (Ret (Fails (Errorf "target must be a pointer")))
    | Some (PtrTo elementType) =>
        LoadProvider elementType (fun found =>
          match found with
          | None =>
              RUnlock (Ret (Fails (Errorf ("no provider registered for type "
                                            +:+ String_ elementType))))
          | Some provider =>
              bind (invoke provider c) (fun result =>
                match result with
                | Fails err =>
                    RUnlock (Ret (Fails (Wrapf "error resolving dependency: " err)))
                | Returns instance =>
                    if assignable instance elementType
                    then RUnlock (Ret (Returns instance))
                    else RUnlock (Panic "reflect.Set: value is not assignable")
                end)
          end)
    end.


End Dependencies.

(* ===================================================================== *)
(** ** The vocabulary of the specification *)
(* ===================================================================== *)

(** The notions the specification speaks in, defined from its words; the
    theorems relate them to the code above. *)
Module Spec.
Import GoStrings.

(** The segments of a path template that are positional tokens: those
    that begin with the sigil ":". *)
Definition tokens (path : string) : list string :=
  List.filter (fun segment => HasPrefix segment ":") (Split path "/").

(** The parameter names typed as 64-bit integers. *)
Definition identifierName (name : string) : Prop :=
  name = "id" \/ name = "userId" \/ name = "user_id".

(** The options of a field's serialization tag: what follows the name,
    separated by commas. *)
Definition jsonOptions (field : Reflect.StructField) : list string :=
  tl (Split (Reflect.Tag_Get (Reflect.Tag field) "json") ",").

(** A field carries the omit-when-empty marker when "omitempty" is among
    the options of its serialization tag. *)
Definition omitWhenEmpty (field : Reflect.StructField) : bool :=
  existsb (String.eqb "omitempty") (jsonOptions field).

(** The name a field is documented under: the name its serialization tag
    gives, when there is a tag, it does not suppress the field ("-") and
    the name in it is not empty; the declared name otherwise. *)
Definition documentedName (field : Reflect.StructField) : string :=
  let tag := Reflect.Tag_Get (Reflect.Tag field) "json" in
  let name := hd "" (Split tag ",") in
  if String.eqb tag "" || String.eqb tag "-" || String.eqb name ""
  then Reflect.Name field else name.

(** The required-field list of a schema, empty when the key is absent. *)
Definition requiredFields (s : Docs.SchemaDoc) : list string :=
  match Docs.sd_required s with
  | Some names => names
  | None => []
  end.

(** Type, format and item type of a field that is neither a pointer nor a
    struct, kind by kind. *)
Definition documentedAs (k : Reflect.BasicKind)
  : option string * option string * option string :=
  match k with
  | Reflect.BInt | Reflect.BInt8 | Reflect.BInt16 | Reflect.BInt32
  | Reflect.BInt64
  | Reflect.BUint | Reflect.BUint8 | Reflect.BUint16 | Reflect.BUint32
  | Reflect.BUint64 => (Some "integer", Some "int64", None)
  | Reflect.BFloat32 => (Some "number", Some "float", None)
  | Reflect.BFloat64 => (Some "number", Some "double", None)
  | Reflect.BBool => (Some "boolean", None, None)
  | Reflect.BString => (Some "string", None, None)
  | Reflect.BSlice | Reflect.BArray => (Some "array", None, Some "string")
  | Reflect.BUintptr | Reflect.BComplex64 | Reflect.BComplex128
  | Reflect.BChan | Reflect.BFunc | Reflect.BInterface | Reflect.BMap
  | Reflect.BUnsafePointer => (Some "string", None, None)
  end.

Definition typing (s : Docs.FieldSchema)
  : option string * option string * option string :=
  (Docs.fs_type s, Docs.fs_format s, Docs.fs_items s).

(** The routes that write the operation of path [p] and method [m] of the
    document, in registration order. *)
Definition writers (rs : list Router.Route) (p m : string) : list Router.Route :=
  List.filter
    (fun r => negb (Docs.isDocumentationPath (Router.Path r))
              && String.eqb (Docs.convertToOpenAPIPath (Router.Path r)) p
              && String.eqb (ToLower (Router.Method r)) m)
    rs.

(** The operation of path [p] and method [m] in a document, if any. *)
Definition operationAt (doc : Docs.SwaggerDoc) (p m : string)
  : option Docs.Operation :=
  match Docs.paths doc !! p with
  | Some item => item !! m
  | None => None
  end.

(** The constraint tags that have a message of their own. *)
Definition recognizedTags : list string :=
  ["required"; "min"; "max"; "email"; "url"; "len"; "gte"; "lte"].

(** The message template of a recognized tag, applied to the field name
    and the constraint parameter. *)
Definition template (tag field param : string) : option string :=
  if String.eqb tag "required" then
    Some ("El campo '" +:+ field +:+ "' es requerido")
  else if String.eqb tag "min" then
    Some ("El campo '" +:+ field +:+ "' debe tener un valor mínimo de " +:+ param)
  else if String.eqb tag "max" then
    Some ("El campo '" +:+ field +:+ "' debe tener un valor máximo de " +:+ param)
  else if String.eqb tag "email" then
    Some ("El campo '" +:+ field +:+ "' debe ser un email válido")
  else if String.eqb tag "url" then
    Some ("El campo '" +:+ field +:+ "' debe ser una URL válida")
  else if String.eqb tag "len" then
    Some ("El campo '" +:+ field +:+ "' debe tener exactamente " +:+ param
          +:+ " caracteres")
  else if String.eqb tag "gte" then
    Some ("El campo '" +:+ field +:+ "' debe ser mayor o igual a " +:+ param)
  else if String.eqb tag "lte" then
    Some ("El campo '" +:+ field +:+ "' debe ser menor o igual a " +:+ param)
  else None.

(** The fallback message: it names the field and the raw tag. *)
Definition fallback (tag field : string) : string :=
  "El campo '" +:+ field +:+ "' no cumple con la validación '" +:+ tag +:+ "'".

(** What one field failure becomes: a record with its field, tag and
    value text, and the message of its tag. *)
Definition formatted (fieldError : Validation.FieldError)
           (e : Validation.ValidationError) : Prop :=
  Validation.Field e = Validation.fe_Field fieldError /\
  Validation.Tag e = Validation.fe_Tag fieldError /\
  Validation.Value e = Validation.fe_ValueText fieldError /\
  (In (Validation.fe_Tag fieldError) recognizedTags ->
   template (Validation.fe_Tag fieldError) (Validation.fe_Field fieldError)
            (Validation.fe_Param fieldError)
   = Some (Validation.Message e)) /\
  (~ In (Validation.fe_Tag fieldError) recognizedTags ->
   Validation.Message e
   = fallback (Validation.fe_Tag fieldError) (Validation.fe_Field fieldError)).

End Spec.

(* ===================================================================== *)
(** ** Two goroutines in the memoizing closure: a finite view *)
(* ===================================================================== *)

(** Two goroutines call the closure [RegisterSingleton] stored, for a key
    without instance, and the user's provider succeeds when first invoked.
    What matters of such a run fits in a finite machine: where each
    goroutine is in the closure, the mutex, which goroutine's call made
    the cached instance, and how many times the provider was invoked. *)
Module Abstract.
Import Dependencies.

(** The program points of the closure. The [bool] names the goroutine
    whose call of the user's provider made the instance at hand. *)
Inductive Point : Set :=
| AtStart | AtCheck | AtHit (maker : bool) | AtMiss | AtLock | AtWait
| AtRecheck | AtCall | AtStore (maker : bool) | AtUnlock (maker : bool)
| AtDone (maker : bool).

Record Shared : Set := mkShared {
  a_readers : nat;
  a_writer : WriterState;
  a_cached : option bool;
  a_invoked : nat
}.







#[export] Instance WriterState_eq_dec : EqDecision WriterState.
Proof. solve_decision. Defined.
#[export] Instance Point_eq_dec : EqDecision Point.
Proof. solve_decision. Defined.
#[export] Instance Shared_eq_dec : EqDecision Shared.
Proof. solve_decision. Defined.









(** The schedule that picks the goroutines in turn, [n] times each. *)
Fixpoint inTurn (n : nat) : list nat :=
  match n with
  | O => []
  | S m => 0 :: 1 :: inTurn m
  end.

(** *** The code at each point *)

Section Code.
Variables (t : rtype) (u : UserProvider) (c : Ctx) (made : bool -> Instance).

Definition afterCall (result : Outcome) : prog Outcome :=
  match result with
  | Fails err => Unlock (Ret (Fails err))
  | Returns instance =>
      StoreInstance t instance (Unlock (Ret (Returns instance)))
  end.

Definition afterRecheck (cached : option Instance) : prog Outcome :=
  match cached with
  | Some instance => Unlock (Ret (Returns instance))
  | None => Call u c afterCall
  end.

Definition afterCheck (cached : option Instance) : prog Outcome :=
  match cached with
  | Some instance => RUnlock (Ret (Returns instance))
  | None => RUnlock (Lock (LoadInstance t afterRecheck))
  end.

(** What is left to run of [memoizing t u c] at a point. *)
Definition code (p : Point) : prog Outcome :=
  match p with
  | AtStart => RLock (LoadInstance t afterCheck)
  | AtCheck => LoadInstance t afterCheck
  | AtHit b => RUnlock (Ret (Returns (made b)))
  | AtMiss => RUnlock (Lock (LoadInstance t afterRecheck))
  | AtLock => Lock (LoadInstance t afterRecheck)
  | AtWait => LockWait (LoadInstance t afterRecheck)
  | AtRecheck => LoadInstance t afterRecheck
  | AtCall => Call u c afterCall
  | AtStore b => StoreInstance t (made b) (Unlock (Ret (Returns (made b))))
  | AtUnlock b => Unlock (Ret (Returns (made b)))
  | AtDone b => Ret (Returns (made b))
  end.
End Code.



End Abstract.

(* ===================================================================== *)
(** ** Further notions used by the theorems on the rest of the code *)
(* ===================================================================== *)

Module More.
Import GoStrings.


(** *** Paths *)

(** What becomes of one segment of a path template in the document. *)
Definition convertSegment (segment : string) : string :=
  if HasPrefix segment ":" then "{" +:+ from1 segment +:+ "}" else segment.

(** The byte [c] does not occur in [s]. *)
Fixpoint lacks (c : ascii) (s : string) : Prop :=
  match s with
  | EmptyString => True
  | String d rest => d <> c /\ lacks c rest
  end.

(** An empty piece that is not the first one. *)
Definition emptyInside (pieces : list string) : Prop :=
  exists first rest, pieces = first :: rest /\ In EmptyString rest.

(** *** The options of a route, as the caller writes them *)

Inductive Option_ : Type :=
| OTags (tags : list string)
| OSummary (summary : string)
| ODescription (description : string)
| OResponse (statusCode : nat) (description : string)
| OParameter (name in_ paramType description : string) (required : bool)
| OPathParameter (name paramType description : string)
| OQueryParameter (name paramType description : string) (required : bool)
| ORequestBody (schema : option Reflect.Value) (description : string)
| OJSONSchema (example : option Reflect.Value) (description : string).

(** The [RouteOption] each call returns. *)
Definition denote (o : Option_) : Router.RouteOption :=
  match o with
  | OTags tags => Router.WithTags tags
  | OSummary s => Router.WithSummary s
  | ODescription d => Router.WithDescription d
  | OResponse code d => Router.WithResponse code d
  | OParameter n i t d r => Router.WithParameter n i t d r
  | OPathParameter n t d => Router.WithPathParameter n t d
  | OQueryParameter n t d r => Router.WithQueryParameter n t d r
  | ORequestBody s d => Router.WithRequestBody s d
  | OJSONSchema e d => Router.WithJSONSchema e d
  end.

(** The tags an option adds. *)
Definition tagsOf (o : Option_) : list string :=
  match o with
  | OTags tags => tags
  | _ => []
  end.

(** The parameter an option declares, if it declares one. *)
Definition parametersOf (o : Option_) : list Router.Parameter_ :=
  match o with
  | OParameter n i t d r => [Router.mkParameter n i t "" r d None]
  | OPathParameter n t d => [Router.mkParameter n "path" t "" true d None]
  | OQueryParameter n t d r => [Router.mkParameter n "query" t "" r d None]
  | ORequestBody s d | OJSONSchema s d =>
      [Router.mkParameter "body" "body" "" "" true d s]
  | _ => []
  end.

(** The summaries and the descriptions the options set, in order. *)
Definition summariesOf (opts : list Option_) : list string :=
  flat_map (fun o => match o with OSummary s => [s] | _ => [] end) opts.

Definition descriptionsOf (opts : list Option_) : list string :=
  flat_map (fun o => match o with ODescription d => [d] | _ => [] end) opts.

(** *** router.go: route groups *)

(** [router.RouterGroup]. Its [apiProvider] is the API the routes are
    added to; the functions below take that API and give it back. *)
Record RouterGroup : Type := mkRouterGroup {
  pathPrefix : string
}.

Definition NewRouterGroup (pathPrefix : string) : RouterGroup :=
  mkRouterGroup pathPrefix.

(** [GoAPI.Group]. *)
Definition APIGroup (path : string) : RouterGroup := NewRouterGroup path.

(** [RouterGroup.Group]. *)
Definition Group (routerGroup : RouterGroup) (path : string) : RouterGroup :=
  NewRouterGroup (pathPrefix routerGroup +:+ path).

(** [RouterGroup.GET], [POST], [PUT], [DELETE] and [PATCH]: [method] is
    the constant each of them passes. *)
Definition GroupHandle (method : string) (routerGroup : RouterGroup)
           (api : Docs.GoAPI) (path : string) (opts : list Router.RouteOption)
  : Docs.GoAPI :=
  Docs.AddRoute api method (pathPrefix routerGroup +:+ path) opts.

Definition GroupGET := GroupHandle "GET".
Definition GroupPOST := GroupHandle "POST".
Definition GroupPUT := GroupHandle "PUT".
Definition GroupDELETE := GroupHandle "DELETE".
Definition GroupPATCH := GroupHandle "PATCH".

(** *** goapi.go: generateSwaggerTemplate *)

(** The paths the template generator skips: two fewer than the document
    generator. *)
Definition isTemplateSkipped (path : string) : bool :=
  String.eqb path "/" || String.eqb path "/docs" || String.eqb path "/redoc"
  || String.eqb path "/swagger/*any" || String.eqb path "/redoc/index.html".

(** One iteration of the loop of [generateSwaggerTemplate]: a new path
    item with the one operation, stored under the path as registered. *)
Definition templateStep (paths : gmap string (gmap string Docs.Operation))
           (route : Router.Route) : gmap string (gmap string Docs.Operation) :=
  if isTemplateSkipped (Router.Path route) then paths
  else
    let pathItem : gmap string Docs.Operation := ∅ in
    let operation := Docs.operationOf route in
    let methodLower := ToLower (Router.Method route) in
    let pathItem := <[methodLower := operation]> pathItem in
    <[Router.Path route := pathItem]> paths.

(** The "paths" of the template [generateSwaggerTemplate] marshals; the
    other keys are constants and fields of the configuration. *)
Definition generateSwaggerTemplate_paths (a : Docs.GoAPI)
  : gmap string (gmap string Docs.Operation) :=
  fold_left templateStep (Docs.routes a) ∅.

End More.

(* ===================================================================== *)
(** ** validation: the combined error and the query parameters *)
(* ===================================================================== *)

Module Query.
Import GoStrings.

(** [ValidationErrors.Error()]. *)
Definition Error (ve : Validation.ValidationErrors) : string :=
  let messages :=
    fold_left (fun messages err => messages ++ [Validation.Message err]) ve [] in
  Join messages "; ".

(** *** strconv, for decimal integers and booleans

    [strconv.Atoi] and [strconv.ParseInt(s, 10, 64)] where [int] has 64
    bits: an optional sign, then one decimal digit or more and nothing
    else; a value outside the 64-bit range is an error. *)
Definition digit (c : ascii) : option Z :=
  let n := nat_of_ascii c in
  if (48 <=? n)%nat && (n <=? 57)%nat then Some (Z.of_nat (n - 48)) else None.

Fixpoint digits (s : string) (acc : Z) : option Z :=
  match s with
  | EmptyString => Some acc
  | String c rest =>
      match digit c with
      | Some d => digits rest (10 * acc + d)
      | None => None
      end
  end.

Definition unsigned (s : string) : option Z :=
  match s with
  | EmptyString => None
  | _ => digits s 0
  end.

Definition strconv_Atoi (s : string) : option Z :=
  let parsed :=
    match s with
    | String "+" rest => unsigned rest
    | String "-" rest => Z.opp <$> unsigned rest
    | _ => unsigned s
    end in
  match parsed with
  | Some n => if ((- 2 ^ 63 <=? n) && (n <? 2 ^ 63))%Z then Some n else None
  | None => None
  end.

(** [strconv.ParseBool]. *)
Definition strconv_ParseBool (s : string) : option bool :=
  if String.eqb s "1" || String.eqb s "t" || String.eqb s "T"
     || String.eqb s "TRUE" || String.eqb s "true" || String.eqb s "True"
  then Some true
  else if String.eqb s "0" || String.eqb s "f" || String.eqb s "F"
          || String.eqb s "FALSE" || String.eqb s "false" || String.eqb s "False"
  then Some false
  else None.

(** *** ParseQueryParams *)

Section Strconv.

(** [float64] and the four functions of [strconv] that [parseValue]
    calls; [None] is a non-nil error. *)
Variable F : Type.
Variables (Atoi ParseInt : string -> option Z).
Variable ParseFloat : string -> option F.
Variable ParseBool : string -> option bool.

(** The [interface{}] values of the result: what [parseValue] makes, or
    any other value given as a default. *)
Inductive QValue : Type :=
| VString (s : string)
| VInt (n : Z)
| VInt64 (n : Z)
| VFloat64 (x : F)
| VBool (b : bool)
| VOther (id : nat).

Record QueryParam : Type := mkQueryParam {
  Name : string;
  Type_ : string;
  Required : bool;
  DefaultValue : option QValue;
  Description : string;
  Example : option QValue
}.

Definition parseValue (value valueType : string) : option QValue :=
  if String.eqb valueType "string" then Some (VString value)
  else if String.eqb valueType "int" then VInt <$> Atoi value
  else if String.eqb valueType "int64" then VInt64 <$> ParseInt value
  else if String.eqb valueType "float64" then VFloat64 <$> ParseFloat value
  else if String.eqb valueType "bool" then VBool <$> ParseBool value
  else Some (VString value).

(** What [ParseQueryParams] returns: the map with a nil error, or nil
    with the validation errors. *)
Inductive ParseResult : Type :=
| Parsed (result : gmap string QValue)
| Invalid (validationErrors : Validation.ValidationErrors).

(** One iteration of the loop over the declared parameters. *)
Definition queryStep (queryValues : gmap string (list string))
           (acc : gmap string QValue * Validation.ValidationErrors)
           (param : QueryParam)
  : gmap string QValue * Validation.ValidationErrors :=
  let '(result, validationErrors) := acc in
  let exists_ := bool_decide (is_Some (queryValues !! Name param)) in
  let values := default [] (queryValues !! Name param) in
  let absent :=
    negb exists_ || (length values =? 0)%nat || String.eqb (hd "" values) "" in
  if Required param && absent then
    (result,
     validationErrors ++
       [Validation.mkValidationError (Name param) "required" ""
          ("El parámetro de consulta '" +:+ Name param +:+ "' es requerido")])
  else if absent then
    match DefaultValue param with
    | Some d => (<[Name param := d]> result, validationErrors)
    | None => (result, validationErrors)
    end
  else
    let value := hd "" values in
    match parseValue value (Type_ param) with
    | None =>
        (result,
         validationErrors ++
           [Validation.mkValidationError (Name param) "type" value
              ("El parámetro '" +:+ Name param +:+ "' debe ser de tipo "
               +:+ Type_ param)])
    | Some parsedValue => (<[Name param := parsedValue]> result, validationErrors)
    end.

Definition ParseQueryParams (queryValues : gmap string (list string))
           (params : list QueryParam) : ParseResult :=
  let '(result, validationErrors) :=
    fold_left (queryStep queryValues) params (∅, []) in
  if (0 <? length validationErrors)%nat then Invalid validationErrors
  else Parsed result.

(** *** The notions the theorems on it are stated in *)

(** The value of a query parameter as the parser takes it: the first of
    the values given, when there is one and it is not empty. *)
Definition firstValue (queryValues : gmap string (list string)) (name : string)
  : option string :=
  match queryValues !! name with
  | Some (v :: _) => if String.eqb v "" then None else Some v
  | _ => None
  end.

(** The error a declared parameter gives rise to, if any. *)
Definition failureOf (queryValues : gmap string (list string)) (param : QueryParam)
  : option Validation.ValidationError :=
  match firstValue queryValues (Name param) with
  | None =>
      if Required param
      then Some (Validation.mkValidationError (Name param) "required" ""
                   ("El parámetro de consulta '" +:+ Name param
                    +:+ "' es requerido"))
      else None
  | Some v =>
      match parseValue v (Type_ param) with
      | None => Some (Validation.mkValidationError (Name param) "type" v
                        ("El parámetro '" +:+ Name param +:+ "' debe ser de tipo "
                         +:+ Type_ param))
      | Some _ => None
      end
  end.

(** The value a declared parameter gives to the result, if any: the
    parsed value when it is given, the default when it is optional and
    not given. *)
Definition valueOf (queryValues : gmap string (list string)) (param : QueryParam)
  : option QValue :=
  match firstValue queryValues (Name param) with
  | None => if Required param then None else DefaultValue param
  | Some v => parseValue v (Type_ param)
  end.

End Strconv.

Arguments VString {F} s.
Arguments VInt {F} n.
Arguments VInt64 {F} n.
Arguments VFloat64 {F} x.
Arguments VBool {F} b.
Arguments VOther {F} id.
Arguments mkQueryParam {F} _ _ _ _ _ _.
Arguments Name {F} _.
Arguments Type_ {F} _.
Arguments Required {F} _.
Arguments DefaultValue {F} _.
Arguments Parsed {F} result.
Arguments Invalid {F} validationErrors.

End Query.

(* ===================================================================== *)
(** ** The advanced example: the user service and its listing handler *)
(* ===================================================================== *)

Module Users.

(** Go's [int], 64 bits wide here: the result of an arithmetic operation
    is the mathematical result wrapped around. *)
Definition wrap (z : Z) : Z := ((z + 2 ^ 63) mod 2 ^ 64 - 2 ^ 63)%Z.

Record User : Type := mkUser {
  ID : Z;
  Name : string;
  Email : string;
  Age : Z;
  IsActive : bool
}.

Record CreateUserRequest : Type := mkCreateUserRequest {
  c_Name : string;
  c_Email : string;
  c_Age : Z
}.

(** The fields are pointers: [None] is nil. *)
Record UpdateUserRequest : Type := mkUpdateUserRequest {
  u_Name : option string;
  u_Email : option string;
  u_Age : option Z;
  u_IsActive : option bool
}.

(** [UserService]. The slices handed out by [GetAll] share the array of
    [users]; what becomes of them on a later [Delete] is not modelled. *)
Record UserService : Type := mkUserService {
  users : list User;
  nextID : Z
}.

Definition NewUserService : UserService :=
  mkUserService
    [ mkUser 1 "Juan Pérez" "juan@example.com" 25 true;
      mkUser 2 "María García" "maria@example.com" 30 true ]
    3.

Definition GetAll (s : UserService) : list User := users s.

(** The loop of [GetByID]; the pointer returned is to a copy. *)
Fixpoint findUser (id : Z) (us : list User) : option User :=
  match us with
  | [] => None
  | user :: rest => if (ID user =? id)%Z then Some user else findUser id rest
  end.

Definition GetByID (s : UserService) (id : Z) : option User :=
  findUser id (users s).

Definition Create (s : UserService) (req : CreateUserRequest)
  : UserService * User :=
  let user := mkUser (nextID s) (c_Name req) (c_Email req) (c_Age req) true in
  (mkUserService (users s ++ [user]) (wrap (nextID s + 1)), user).

(** The assignments of [Update] to the user found. *)
Definition updated (req : UpdateUserRequest) (user : User) : User :=
  let user :=
    match u_Name req with
    | Some name => mkUser (ID user) name (Email user) (Age user) (IsActive user)
    | None => user
    end in
  let user :=
    match u_Email req with
    | Some email => mkUser (ID user) (Name user) email (Age user) (IsActive user)
    | None => user
    end in
  let user :=
    match u_Age req with
    | Some age => mkUser (ID user) (Name user) (Email user) age (IsActive user)
    | None => user
    end in
  match u_IsActive req with
  | Some active => mkUser (ID user) (Name user) (Email user) (Age user) active
  | None => user
  end.

(** The loop of [Update]: the users after it and the user updated. *)
Fixpoint updateUser (id : Z) (req : UpdateUserRequest) (us : list User)
  : option (list User * User) :=
  match us with
  | [] => None
  | user :: rest =>
      if (ID user =? id)%Z then Some (updated req user :: rest, updated req user)
      else match updateUser id req rest with
           | Some (rest', found) => Some (user :: rest', found)
           | None => None
           end
  end.

Definition Update (s : UserService) (id : Z) (req : UpdateUserRequest)
  : UserService * option User :=
  match updateUser id req (users s) with
  | Some (us, found) => (mkUserService us (nextID s), Some found)
  | None => (s, None)
  end.

(** The loop of [Delete]: [append(users[:i], users[i+1:]...)] at the
    first user with the ID. *)
Fixpoint deleteUser (id : Z) (us : list User) : option (list User) :=
  match us with
  | [] => None
  | user :: rest =>
      if (ID user =? id)%Z then Some rest
      else match deleteUser id rest with
           | Some rest' => Some (user :: rest')
           | None => None
           end
  end.

Definition Delete (s : UserService) (id : Z) : UserService * bool :=
  match deleteUser id (users s) with
  | Some us => (mkUserService us (nextID s), true)
  | None => (s, false)
  end.

(** *** The handler GetUsers and responses.Paginated *)

(** What the handler answers: a 400 with a detail, the paginated body in
    a 200, or a run-time panic (which the recovery middleware turns into
    a 500). *)
Inductive Response : Type :=
| BadRequest (detail : string)
| PaginatedOK (items : list User) (total page pageSize totalPages : Z)
| Panics.

(** [responses.Paginated]: integer division panics on a zero divisor and
    truncates toward zero. *)
Definition Paginated (items : list User) (total page pageSize : Z) : Response :=
  if (pageSize =? 0)%Z then Panics
  else
    let totalPages := wrap (Z.quot (wrap (wrap (total + pageSize) - 1)) pageSize) in
    PaginatedOK items total page pageSize totalPages.

(** [us[start:end]] for a slice whose capacity is its length: a panic
    unless [0 <= start <= end <= len(us)]. *)
Definition slice (us : list User) (start end_ : Z) : option (list User) :=
  if ((0 <=? start) && (start <=? end_) && (end_ <=? Z.of_nat (length us)))%Z
  then Some (firstn (Z.to_nat (end_ - start)) (skipn (Z.to_nat start) us))
  else None.

Section Strconv.
(** [strconv.Atoi] and [strconv.ParseBool]; [None] is a non-nil error. *)
Variable Atoi : string -> option Z.
Variable ParseBool : string -> option bool.

(** The handler, given the service and the query values of "page",
    "page_size" and "active" ([None] when the key is not in the query). *)
Definition GetUsers (service : UserService)
           (pageQuery pageSizeQuery activeQuery : option string) : Response :=
  let pageStr := default "1" pageQuery in
  let pageSizeStr := default "10" pageSizeQuery in
  let activeStr := default "" activeQuery in
  match Atoi pageStr with
  | None => BadRequest "Parámetro 'page' inválido"
  | Some page =>
      if (page <? 1)%Z then BadRequest "Parámetro 'page' inválido"
      else
        match Atoi pageSizeStr with
        | None => BadRequest "Parámetro 'page_size' inválido (1-100)"
        | Some pageSize =>
            if ((pageSize <? 1) || (100 <? pageSize))%Z
            then BadRequest "Parámetro 'page_size' inválido (1-100)"
            else
              let paginate (us : list User) : Response :=
                let total := Z.of_nat (length us) in
                let start := wrap (wrap (page - 1) * pageSize) in
                let end_ := wrap (start + pageSize) in
                if (total <=? start)%Z then Paginated [] total page pageSize
                else
                  let end_ := if (total <? end_)%Z then total else end_ in
                  match slice us start end_ with
                  | Some items => Paginated items total page pageSize
                  | None => Panics
                  end in
              let us := GetAll service in
              if negb (String.eqb activeStr "") then
                match ParseBool activeStr with
                | None => BadRequest "Parámetro 'active' inválido"
                | Some active =>
                    paginate
                      (fold_left
                         (fun filteredUsers user =>
                            if Bool.eqb (IsActive user) active
                            then filteredUsers ++ [user] else filteredUsers)
                         us [])
                end
              else paginate us
        end
  end.
End Strconv.

(** *** The notions the theorems on the service are stated in *)

(** The IDs are distinct and below the next ID. *)
Definition wellKept (s : UserService) : Prop :=
  NoDup (map ID (users s)) /\ Forall (fun user => (ID user < nextID s)%Z) (users s).

(** The users the listing is about: all of them, or those whose
    [IsActive] is the flag asked for. *)
Definition listed (active : option bool) (us : list User) : list User :=
  match active with
  | None => us
  | Some flag => List.filter (fun user => Bool.eqb (IsActive user) flag) us
  end.

(** Page [page] (counted from 1) of a list, [pageSize] elements a page. *)
Definition pageOf (us : list User) (page pageSize : Z) : list User :=
  firstn (Z.to_nat pageSize) (skipn (Z.to_nat ((page - 1) * pageSize)) us).

End Users.

(* ===================================================================== *)
(** ** Loops that collect *)
(* ===================================================================== *)

Section Collect.
Context {A B : Type}.
Variables (keep : A -> bool) (f : A -> B).

(** A [for ... range] loop that appends [f x] for the elements it keeps
    computes a filter followed by a map. *)
Lemma fold_left_collect (l : list A) (init : list B) :
  fold_left (fun acc x => if keep x then acc ++ [f x] else acc) l init
  = init ++ map f (List.filter keep l).
Proof.
  revert init. induction l as [| x l IH]; intros init; simpl.
  - now rewrite app_nil_r.
  - rewrite IH. destruct (keep x); simpl; [| reflexivity].
    now rewrite <- app_assoc.
Qed.

Lemma fold_left_append (l : list A) (init : list B) :
  fold_left (fun acc x => acc ++ [f x]) l init = init ++ map f l.
Proof.
  revert init. induction l as [| x l IH]; intros init; simpl.
  - now rewrite app_nil_r.
  - rewrite IH. now rewrite <- app_assoc.
Qed.
End Collect.

(* ===================================================================== *)
(** ** Theorems on the documentation generator *)
(* ===================================================================== *)

Module DocsTheory.
Import GoStrings Docs Spec.

(** *** Parameter extraction *)

Lemma extractParameters_tokens (path : string) :
  extractParameters path = map pathParameter (tokens path).
Proof. unfold extractParameters, tokens. now rewrite fold_left_collect. Qed.

Lemma pathParameter_shape (segment : string) :
  let p := pathParameter segment in
  pd_name p = from1 segment /\ pd_in p = "path" /\ pd_required p = true /\
  pd_schema p = None /\
  (identifierName (pd_name p) ->
   pd_type p = Some "integer" /\ pd_format p = Some "int64") /\
  (~ identifierName (pd_name p) ->
   pd_type p = Some "string" /\ pd_format p = None).
Proof.
  unfold pathParameter, identifierName; simpl.
  destruct (String.eqb_spec (from1 segment) "id") as [E1 | N1]; simpl;
    [| destruct (String.eqb_spec (from1 segment) "userId") as [E2 | N2]; simpl;
       [| destruct (String.eqb_spec (from1 segment) "user_id") as [E3 | N3];
          simpl ] ];
    repeat split; try reflexivity; exfalso; intuition congruence.
Qed.

(** C6. For every path template, [extractParameters] gives one parameter
    per segment that starts with ":" and no other, in the order of the
    segments, named by the rest of the segment; each is in "path" and
    required; the names "id", "userId" and "user_id" are typed
    ("integer", "int64"), every other name "string" without a format. *)
Theorem extractParameters_one_per_token (path : string) :
  length (extractParameters path) = length (tokens path) /\
  map pd_name (extractParameters path) = map from1 (tokens path) /\
  Forall (fun p =>
            pd_in p = "path" /\ pd_required p = true /\
            (identifierName (pd_name p) ->
             pd_type p = Some "integer" /\ pd_format p = Some "int64") /\
            (~ identifierName (pd_name p) ->
             pd_type p = Some "string" /\ pd_format p = None))
         (extractParameters path).
Proof.
  rewrite extractParameters_tokens. split; [| split].
  - now rewrite length_map.
  - rewrite map_map. apply map_ext. intros s. apply pathParameter_shape.
  - apply List.Forall_forall. intros p Hp. apply in_map_iff in Hp as [s [<- _]].
    pose proof (pathParameter_shape s) as (_ & Hin & Hreq & _ & Hid & Hno).
    auto.
Qed.

Example extractParameters_users_id :
  extractParameters "/users/:id/posts/:slug"
  = [ mkParameterDoc "id" "path" true "ID del recurso" (Some "integer")
                     (Some "int64") None;
      mkParameterDoc "slug" "path" true "Parรกmetro slug" (Some "string")
                     None None ].
Proof. reflexivity. Qed.

(** *** Schema synthesis: the required fields *)

Lemma isOptional_existsb (parts : list string) :
  isOptional parts = existsb (String.eqb "omitempty") parts.
Proof.
  induction parts as [| part rest IH]; cbn [isOptional existsb]; [reflexivity |].
  rewrite (String.eqb_sym "omitempty" part).
  destruct (String.eqb part "omitempty"); cbn [orb]; [reflexivity | exact IH].
Qed.

(** One field: it is appended to [required], under its documented name,
    unless it carries the marker. *)
Lemma fieldStep_required (properties : gmap string FieldSchema)
      (required : list string) (field : Reflect.StructField) (v : Reflect.Value) :
  snd (fieldStep (properties, required) (field, v))
  = if omitWhenEmpty field then required else required ++ [documentedName field].
Proof.
  unfold fieldStep, omitWhenEmpty, documentedName, jsonOptions.
  destruct (String.eqb_spec (Reflect.Tag_Get (Reflect.Tag field) "json") "")
    as [E | N]; simpl.
  { rewrite E. reflexivity. }
  destruct (String.eqb_spec (Reflect.Tag_Get (Reflect.Tag field) "json") "-")
    as [E' | N']; simpl.
  { rewrite E'. reflexivity. }
  rewrite isOptional_existsb.
  destruct (existsb _ _); simpl; [reflexivity |].
  destruct (String.eqb _ ""); reflexivity.
Qed.

Lemma fields_required (fields : list (Reflect.StructField * Reflect.Value))
      (properties : gmap string FieldSchema) (required : list string) :
  snd (fold_left fieldStep fields (properties, required))
  = required ++ map documentedName
                    (List.filter (fun f => negb (omitWhenEmpty f)) (map fst fields)).
Proof.
  revert properties required.
  induction fields as [| [field v] rest IH]; intros properties required;
    cbn [fold_left map fst List.filter].
  - cbn. now rewrite app_nil_r.
  - pose proof (fieldStep_required properties required field v) as Hstep.
    destruct (fieldStep (properties, required) (field, v)) as [properties' required'].
    cbn [snd] in Hstep. rewrite IH, Hstep.
    destruct (omitWhenEmpty field); cbn [negb map]; [reflexivity |].
    now rewrite <- app_assoc.
Qed.

Lemma generateSchemaFromStruct_record
      (fields : list (Reflect.StructField * Reflect.Value)) :
  requiredFields (generateSchemaFromStruct (Some (Reflect.Record_ fields)))
  = map documentedName
        (List.filter (fun f => negb (omitWhenEmpty f)) (map fst fields)).
Proof.
  unfold generateSchemaFromStruct.
  pose proof (fields_required fields ∅ []) as H.
  destruct (fold_left fieldStep fields (∅, [])) as [properties required].
  simpl in H. subst required.
  destruct (map documentedName _) as [| n ns]; reflexivity.
Qed.

(** C4. For every struct example, whatever its fields, the required-field
    list of the synthesized schema is the list of the documented names of
    the fields without the omit-when-empty marker, in declaration order;
    the same holds for a pointer to the struct; a field with no
    serialization tag at all is required, under its declared name; and
    the "required" key is absent exactly when no field is required. *)
Theorem required_fields_lack_omitempty
        (fields : list (Reflect.StructField * Reflect.Value)) :
  let unmarked := List.filter (fun f => negb (omitWhenEmpty f)) (map fst fields) in
  let schema := generateSchemaFromStruct (Some (Reflect.Record_ fields)) in
  requiredFields schema = map documentedName unmarked /\
  generateSchemaFromStruct (Some (Reflect.Pointer (Some (Reflect.Record_ fields))))
  = mkSchemaDoc (sd_type schema) (sd_properties schema)
                (Some (Reflect.Pointer (Some (Reflect.Record_ fields))))
                (sd_required schema) /\
  (forall field, In field (map fst fields) ->
                 Reflect.Tag_Get (Reflect.Tag field) "json" = "" ->
                 In (Reflect.Name field) (requiredFields schema)) /\
  (sd_required schema = None <-> unmarked = []).
Proof.
  intros unmarked schema. subst schema.
  rewrite generateSchemaFromStruct_record. fold unmarked.
  split; [reflexivity | split; [| split]].
  - unfold generateSchemaFromStruct.
    destruct (fold_left fieldStep fields (∅, [])) as [properties required].
    destruct (0 <? length required)%nat; reflexivity.
  - intros field Hin Htag. apply in_map_iff. exists field. split.
    + unfold documentedName. now rewrite Htag.
    + apply filter_In. split; [exact Hin |].
      unfold omitWhenEmpty, jsonOptions. now rewrite Htag.
  - pose proof (generateSchemaFromStruct_record fields) as H. fold unmarked in H.
    unfold requiredFields in H. unfold generateSchemaFromStruct in *.
    destruct (fold_left fieldStep fields (∅, [])) as [properties required].
    destruct required as [| r rs]; simpl in *.
    + split; [intros _ | reflexivity].
      destruct unmarked; [reflexivity | discriminate].
    + split; [discriminate |]. intros E. rewrite E in H. discriminate.
Qed.

(** *** Schema synthesis: the type of a field *)

(** C5, counterexample. [uintptr] is an unsigned integer kind, and a field
    of that kind is not documented as ("integer", "int64"). *)
Lemma uintptr_field_not_integer :
  typing (getFieldSchema (Reflect.Basic Reflect.BUintptr)
                         (Reflect.mkStructField "Handle" []))
  <> (Some "integer", Some "int64", None).
Proof. discriminate. Qed.

(** C5, amended. The integer kinds int, int8..int64 and uint, uint8..uint64
    are documented as ("integer", "int64"), float32 as ("number", "float"),
    float64 as ("number", "double"), bool as "boolean", string as "string",
    slices and arrays as "array" with items of type "string"; a non-nil
    pointer as what it points to; a nil pointer and every other kind,
    uintptr among them, as "string". *)
Theorem getFieldSchema_typing (fieldValue : Reflect.Value)
        (field : Reflect.StructField) :
  match fieldValue with
  | Reflect.Basic k => typing (getFieldSchema fieldValue field) = documentedAs k
  | Reflect.Pointer (Some elem) =>
      getFieldSchema fieldValue field = getFieldSchema elem field
  | Reflect.Pointer None | Reflect.Record_ _ =>
      typing (getFieldSchema fieldValue field) = (Some "string", None, None)
  end.
Proof.
  destruct fieldValue as [k | [elem |] | fields]; try reflexivity;
    try destruct k; simpl;
    destruct (String.eqb (Reflect.Tag_Get (Reflect.Tag field) "example") "");
    reflexivity.
Qed.

(** *** The parameters of a route *)



(** *** The paths of the document *)

(** The operation at a path and method is the one of the last route that
    writes there. *)
Lemma routeStep_lookup (rs : list Router.Route) (p m : string) :
  (match fold_left routeStep rs ∅ !! p with
   | Some item => item !! m
   | None => None
   end) = (operationOf <$> last (writers rs p m)).
Proof.
  induction rs as [| r rs IH] using rev_ind.
  - cbn. now rewrite lookup_empty.
  - rewrite fold_left_app. cbn [fold_left].
    unfold writers in *. rewrite List.filter_app. cbn [List.filter].
    set (paths := fold_left routeStep rs ∅) in *.
    unfold routeStep.
    destruct (isDocumentationPath (Router.Path r)); cbn [negb andb].
    { rewrite app_nil_r. exact IH. }
    destruct (String.eqb_spec (convertToOpenAPIPath (Router.Path r)) p) as [Ep | Np];
      cbn [andb].
    + subst p. rewrite lookup_insert_eq.
      destruct (String.eqb_spec (ToLower (Router.Method r)) m) as [Em | Nm].
      * subst m. rewrite lookup_insert_eq, last_snoc. reflexivity.
      * rewrite lookup_insert_ne by exact Nm. rewrite app_nil_r, <- IH.
        destruct (paths !! convertToOpenAPIPath (Router.Path r));
          [reflexivity | apply lookup_empty].
    + rewrite lookup_insert_ne by exact Np. rewrite app_nil_r. exact IH.
Qed.

Lemma operationAt_last_writer (a : GoAPI) (p m : string) :
  operationAt (getSwaggerJSON a) p m
  = (operationOf <$> last (writers (routes a) p m)).
Proof. unfold operationAt, getSwaggerJSON. cbn [paths]. apply routeStep_lookup. Qed.









(** The scenario of the specification: "GET /users/:id" registered
    without parameters. *)
Example users_id_is_documented :
  let a := AddRoute (mkGoAPI DefaultConfig []) "GET" "/users/:id" [] in
  op_parameters <$> operationAt (getSwaggerJSON a) "/users/{id}" "get"
  = Some [ mkParameterDoc "id" "path" true "ID del recurso" (Some "integer")
                          (Some "int64") None ].
Proof. vm_compute. reflexivity. Qed.

End DocsTheory.

(* ===================================================================== *)
(** ** Theorems on the validation messages *)
(* ===================================================================== *)

Module ValidationTheory.
Import Validation Spec.

Lemma messageFor_template (fieldError : FieldError) :
  (In (fe_Tag fieldError) recognizedTags ->
   template (fe_Tag fieldError) (fe_Field fieldError) (fe_Param fieldError)
   = Some (messageFor fieldError)) /\
  (~ In (fe_Tag fieldError) recognizedTags ->
   messageFor fieldError = fallback (fe_Tag fieldError) (fe_Field fieldError)).
Proof.
  destruct fieldError as [field tag param text].
  unfold messageFor, template, fallback, recognizedTags.
  cbn [fe_Tag fe_Field fe_Param In].
  repeat
    match goal with
    | |- context [String.eqb tag ?known] =>
        destruct (String.eqb_spec tag known) as [? | ?];
        [ split; [intros _; reflexivity | intros H; exfalso; intuition congruence] | ]
    end.
  split; [intros H; exfalso; intuition congruence | reflexivity].
Qed.

Lemma FormatValidationErrors_map (fieldErrors : list FieldError) :
  FormatValidationErrors (ValidatorErrors fieldErrors)
  = map (fun fieldError =>
           mkValidationError (fe_Field fieldError) (fe_Tag fieldError)
                             (fe_ValueText fieldError) (messageFor fieldError))
        fieldErrors.
Proof. unfold FormatValidationErrors. now rewrite fold_left_append. Qed.

(** C9. For the validator's field failures the formatter returns one
    record per failure, in order, with the field, the tag and the value
    text of the failure; its message is the template of the tag applied to
    the field name and the constraint parameter when the tag is one of
    required, min, max, email, url, len, gte, lte, and the fallback naming
    the field and the raw tag otherwise. It is a total function: it has a
    result, a sequence, for every input, and that sequence is empty for
    nil and for every error that is not the validator's collection. *)
Theorem FormatValidationErrors_spec (err : GoError) :
  match err with
  | ValidatorErrors fieldErrors =>
      Forall2 formatted fieldErrors (FormatValidationErrors err)
  | NilError | OtherError _ => FormatValidationErrors err = []
  end.
Proof.
  destruct err as [| fieldErrors | message]; try reflexivity.
  rewrite FormatValidationErrors_map.
  induction fieldErrors as [| fieldError rest IH]; cbn [map]; constructor.
  - unfold formatted. cbn [Field Tag Value Message].
    repeat split; apply messageFor_template.
  - exact IH.
Qed.

Example required_email_message :
  FormatValidationErrors
    (ValidatorErrors [mkFieldError "email" "required" "" ""])
  = [mkValidationError "email" "required" "" "El campo 'email' es requerido"].
Proof. reflexivity. Qed.

End ValidationTheory.

(* ===================================================================== *)
(** ** Theorems on the dependency container *)
(* ===================================================================== *)

Module DependenciesTheory.
Import Dependencies.

(** *** Running alone *)

Lemma exec_stuck {A : Type} (fuel : nat) (dc : Container) (p : prog A) :
  step dc p = None -> exec fuel dc p = (dc, p).
Proof. intros H. destruct fuel; simpl; [reflexivity | now rewrite H]. Qed.

Lemma exec_more {A : Type} (fuel extra : nat) (dc dc' : Container) (p : prog A)
      (a : A) :
  exec fuel dc p = (dc', Ret a) -> exec (fuel + extra) dc p = (dc', Ret a).
Proof.
  revert dc p. induction fuel as [| fuel IH]; intros dc p H; simpl in *.
  - injection H as -> ->. now apply exec_stuck.
  - destruct (step dc p) as [[dc1 p1] |]; [now apply IH | exact H].
Qed.

Lemma PtrTo_neq (t : rtype) : PtrTo t <> t.
Proof. induction t as [n | e IH]; [discriminate | intros H; injection H; exact IH]. Qed.

Ltac container dc :=
  destruct dc as [provs insts [rd wr] log]; cbn [mutex writer readers providers
                                                  instances calls] in *; subst.

(** *** Resolve on a type without provider, and on a provider that fails *)

Lemma Resolve_no_provider (dc : Container) (c : Ctx) (elementType : rtype)
      (fuel : nat) :
  writer (mutex dc) = NoWriter ->
  providers dc !! elementType = None ->
  exec (3 + fuel) dc (Resolve c (Some (PtrTo elementType)))
  = (dc, Ret (Fails (Errorf ("no provider registered for type "
                              +:+ String_ elementType)))).
Proof.
  intros Hw Hp. container dc.
  cbn -[String.append]. rewrite Hp. cbn -[String.append].
  now apply exec_stuck.
Qed.




(** *** Registration keys and the target of Resolve *)

Lemma Register_stores (dc : Container) (provider : UserProvider) (w : rtype) :
  mutex dc = mkRWMutex 0 NoWriter ->
  exec 4 dc (Register provider (Some w))
  = (mkContainer (<[registrationKey w := Plain provider]> (providers dc))
                 (instances dc) (mutex dc) (calls dc), Ret tt).
Proof. intros Hm. container dc. injection Hm as -> ->. reflexivity. Qed.

Lemma RegisterSingleton_stores (dc : Container) (provider : UserProvider)
      (w : rtype) :
  mutex dc = mkRWMutex 0 NoWriter ->
  exec 4 dc (RegisterSingleton provider (Some w))
  = (mkContainer (<[registrationKey w :=
                      Memoizing (registrationKey w) provider]> (providers dc))
                 (instances dc) (mutex dc) (calls dc), Ret tt).
Proof. intros Hm. container dc. injection Hm as -> ->. reflexivity. Qed.

(** C10. [Register] and [RegisterSingleton] store the provider under the
    type of the witness with one pointer level removed, if it has one, and
    leave every other key as it was. [Resolve] looks up the type of its
    target with exactly one pointer level removed and nothing more: for
    every element type other than the registration key that had no
    provider before, it returns the "no provider" error and changes
    nothing. So after a registration with a witness of type [*T], in a
    container without provider for [*T], [Resolve] with a target of type
    [**T] returns "no provider registered for type *T". *)
Theorem registration_key_is_pointee (dc : Container) (provider : UserProvider)
        (c : Ctx) (w : rtype) (singleton : bool) :
  mutex dc = mkRWMutex 0 NoWriter ->
  let key := registrationKey w in
  let register := if singleton then RegisterSingleton else Register in
  let stored := if singleton then Memoizing key provider else Plain provider in
  let dc1 := fst (exec 4 dc (register provider (Some w))) in
  exec 4 dc (register provider (Some w)) = (dc1, Ret tt) /\
  (forall T, w = PtrTo T -> key = T) /\
  providers dc1 = <[key := stored]> (providers dc) /\
  (forall e fuel,
     e <> key -> providers dc !! e = None ->
     exec (3 + fuel) dc1 (Resolve c (Some (PtrTo e)))
     = (dc1, Ret (Fails (Errorf ("no provider registered for type "
                                  +:+ String_ e))))) /\
  (forall T fuel,
     w = PtrTo T -> providers dc !! PtrTo T = None ->
     exec (3 + fuel) dc1 (Resolve c (Some (PtrTo (PtrTo T))))
     = (dc1, Ret (Fails (Errorf ("no provider registered for type *"
                                  +:+ String_ T))))).
Proof.
  intros Hm key register stored dc1.
  assert (Hrun : exec 4 dc (register provider (Some w))
                 = (mkContainer (<[key := stored]> (providers dc)) (instances dc)
                                (mutex dc) (calls dc), Ret tt)).
  { subst register stored key. destruct singleton.
    - now rewrite RegisterSingleton_stores.
    - now rewrite Register_stores. }
  assert (Hmiss : forall e fuel,
             e <> key -> providers dc !! e = None ->
             exec (3 + fuel)
                  (mkContainer (<[key := stored]> (providers dc)) (instances dc)
                               (mutex dc) (calls dc))
                  (Resolve c (Some (PtrTo e)))
             = (mkContainer (<[key := stored]> (providers dc)) (instances dc)
                            (mutex dc) (calls dc),
                Ret (Fails (Errorf ("no provider registered for type "
                                     +:+ String_ e))))).
  { intros e fuel He Hp. apply Resolve_no_provider.
    - cbn. now rewrite Hm.
    - cbn. rewrite lookup_insert_ne; [exact Hp | congruence]. }
  subst dc1. rewrite Hrun. cbn [fst providers].
  split; [reflexivity | split; [| split; [reflexivity | split]]].
  - intros T ->. reflexivity.
  - exact Hmiss.
  - intros T fuel -> Hp. apply (Hmiss (PtrTo T) fuel); [| exact Hp].
    apply PtrTo_neq.
Qed.

Lemma registration_key_is_pointee_witness :
  let UserService := Named "main.UserService" in
  let provider :=
    mkUserProvider 1 (fun _ _ => Returns (Obj (PtrTo UserService) 1)) in
  let dc1 := fst (exec 4 NewDependencyContainer
                       (RegisterSingleton provider (Some (PtrTo UserService)))) in
  exec 3 dc1 (Resolve 0 (Some (PtrTo (PtrTo UserService))))
  = (dc1, Ret (Fails (Errorf "no provider registered for type *main.UserService"))).
Proof.
  intros UserService provider dc1.
  destruct (registration_key_is_pointee NewDependencyContainer provider 0
              (PtrTo UserService) true eq_refl)
    as (_ & _ & _ & _ & H).
  exact (H UserService 0 eq_refl eq_refl).
Defined.

(** *** Resolve on a singleton *)

(** C2, what the code does. With a memoizing closure registered for a key
    and no instance cached yet, a goroutine that calls [Resolve] alone, on
    a free mutex, takes the read lock, finds the closure and calls it
    while still holding the read lock; the closure asks the same mutex for
    the write lock and waits for the readers to leave, of which the caller
    is one. After six steps the goroutine cannot move any more, the
    user's provider has not been invoked, and [Resolve] never returns. *)
Theorem Resolve_singleton_first_blocks (dc : Container) (c : Ctx) (t : rtype)
        (u : UserProvider) :
  writer (mutex dc) = NoWriter ->
  providers dc !! t = Some (Memoizing t u) ->
  instances dc !! t = None ->
  (exists k,
     forall fuel,
       exec (6 + fuel) dc (Resolve c (Some (PtrTo t)))
       = (set_mutex (mkRWMutex (S (readers (mutex dc))) WriterWaiting) dc,
          LockWait k)) /\
  (forall fuel r, snd (exec fuel dc (Resolve c (Some (PtrTo t)))) <> Ret r).
Proof.
  intros Hw Hp Hi. container dc.
  assert (Hsix : exists k, forall fuel,
             exec (6 + fuel)
                  (mkContainer provs insts (mkRWMutex rd NoWriter) log)
                  (Resolve c (Some (PtrTo t)))
             = (mkContainer provs insts (mkRWMutex (S rd) WriterWaiting) log,
                LockWait k)).
  { eexists. intros fuel. cbn. rewrite Hp. cbn. rewrite Hi. cbn.
    rewrite exec_stuck by reflexivity. reflexivity. }
  split; [exact Hsix |].
  destruct Hsix as [k Hsix]. intros fuel r.
  destruct (Nat.le_gt_cases 6 fuel) as [Hge | Hlt].
  - replace fuel with (6 + (fuel - 6)) by lia. rewrite Hsix. discriminate.
  - do 6 (destruct fuel as [| fuel];
          [cbn; rewrite ?Hp; cbn; rewrite ?Hi; cbn; discriminate |]).
    lia.
Qed.

Lemma Resolve_singleton_first_blocks_witness :
  let UserService := Named "main.UserService" in
  let provider := mkUserProvider 1 (fun _ _ => Returns (Obj UserService 1)) in
  let dc1 := fst (exec 4 NewDependencyContainer
                       (RegisterSingleton provider (Some (PtrTo UserService)))) in
  exists k,
    exec 1000 dc1 (Resolve 0 (Some (PtrTo UserService)))
    = (set_mutex (mkRWMutex 1 WriterWaiting) dc1, LockWait k).
Proof.
  intros UserService provider dc1.
  destruct (Resolve_singleton_first_blocks dc1 0 UserService provider
              eq_refl eq_refl eq_refl) as [[k Hk] _].
  exists k. exact (Hk 994).
Defined.

(** *** Two goroutines in the memoizing closure *)

Section TwoCallers.
Import Abstract.
Variables (t : rtype) (u : UserProvider) (c0 c1 : Ctx) (dc0 : Container).
Variable made : bool -> Instance.

(** Whichever call invokes the user's provider first, the provider
    succeeds. *)
Hypothesis first0 :
  behaviour u c0 (invocations (uid u) (calls dc0)) = Returns (made false).
Hypothesis first1 :
  behaviour u c1 (invocations (uid u) (calls dc0)) = Returns (made true).




End TwoCallers.

(** *** The finite view explored *)








(** *** The provider of a singleton is invoked once *)





Example two_callers_share_the_instance :
  let T := Named "UserService" in
  let u := mkUserProvider 1 (fun c _ => Returns (Obj (PtrTo T) c)) in
  let cfg := run (Abstract.inTurn 12)
                 (NewDependencyContainer, [memoizing T u 7; memoizing T u 8]) in
  snd cfg = [Ret (Returns (Obj (PtrTo T) 7)); Ret (Returns (Obj (PtrTo T) 7))] /\
  calls (fst cfg) = [1].
Proof. vm_compute. split; reflexivity. Qed.

End DependenciesTheory.

(* ===================================================================== *)
(** ** More on the dependency container *)
(* ===================================================================== *)

Module DependenciesMore.
Import Dependencies DependenciesTheory More.

(** *** Providers stored by Register *)



(** X2. A target that is not a pointer is refused with "target must be a
    pointer", and a nil target panics; in both cases the read lock is
    released and the container is as before. *)
Theorem Resolve_bad_target (dc : Container) (c : Ctx) (fuel : nat) :
  writer (mutex dc) = NoWriter ->
  (forall name,
     exec (2 + fuel) dc (Resolve c (Some (Named name)))
     = (dc, Ret (Fails (Errorf "target must be a pointer")))) /\
  (exists message, exec (2 + fuel) dc (Resolve c None) = (dc, Panic message)).
Proof.
  intros Hw. container dc. split.
  - intros name. cbn. now rewrite exec_stuck.
  - eexists. cbn. now rewrite exec_stuck.
Qed.

Lemma Resolve_bad_target_witness :
  exec 2 NewDependencyContainer (Resolve 0 (Some (Named "main.UserService")))
  = (NewDependencyContainer, Ret (Fails (Errorf "target must be a pointer"))).
Proof.
  exact (proj1 (Resolve_bad_target NewDependencyContainer 0 0 eq_refl)
               "main.UserService").
Defined.

(** *** The memoizing closure, one caller at a time *)

(** X3. The closure stored by [RegisterSingleton], called on a free mutex
    for a key without instance: when the user's provider succeeds, the
    call ends after nine steps, has invoked the provider once, has cached
    the instance under the key and returns it. From then on, whatever the
    context and whatever the provider would answer, a call ends after
    three steps with the cached instance, does not invoke the provider and
    leaves the container as it is. *)
Theorem memoizing_caches_first_success (dc : Container) (t : rtype)
        (u : UserProvider) (c : Ctx) (v : Instance) (fuel : nat) :
  mutex dc = mkRWMutex 0 NoWriter ->
  instances dc !! t = None ->
  behaviour u c (invocations (uid u) (calls dc)) = Returns v ->
  let dc' := mkContainer (providers dc) (<[t := v]> (instances dc)) (mutex dc)
                         (calls dc ++ [uid u]) in
  exec (9 + fuel) dc (memoizing t u c) = (dc', Ret (Returns v)) /\
  forall c' fuel', exec (3 + fuel') dc' (memoizing t u c') = (dc', Ret (Returns v)).
Proof.
  intros Hm Hi Hb dc'. subst dc'. container dc. injection Hm as -> ->. split.
  - cbn -[invocations]. rewrite Hi. cbn -[invocations]. rewrite Hi.
    cbn -[invocations]. rewrite Hb. cbn.
    now rewrite exec_stuck.
  - intros c' fuel'. cbn. rewrite lookup_insert_eq. cbn. now rewrite exec_stuck.
Qed.

Lemma memoizing_caches_first_success_witness :
  let T := Named "main.UserService" in
  let u := mkUserProvider 1 (fun c n => Returns (Obj (PtrTo T) (c + n))) in
  let dc' := mkContainer ∅ {[ T := Obj (PtrTo T) 7 ]} (mkRWMutex 0 NoWriter) [1] in
  exec 9 NewDependencyContainer (memoizing T u 7) = (dc', Ret (Returns (Obj (PtrTo T) 7)))
  /\ exec 3 dc' (memoizing T u 9) = (dc', Ret (Returns (Obj (PtrTo T) 7))).
Proof.
  intros T u dc'.
  destruct (memoizing_caches_first_success NewDependencyContainer T u 7
              (Obj (PtrTo T) 7) 0 eq_refl eq_refl eq_refl) as [H1 H2].
  split; [exact H1 | exact (H2 9 0)].
Defined.

(** X4. A failure of the user's provider is not cached: the call returns
    the provider's error as it is, the instance map is unchanged, the mutex
    is free again, and the next call invokes the provider once more. *)
Theorem memoizing_retries_after_failure (dc : Container) (t : rtype)
        (u : UserProvider) (c c' : Ctx) (err : error) (fuel : nat) :
  mutex dc = mkRWMutex 0 NoWriter ->
  instances dc !! t = None ->
  behaviour u c (invocations (uid u) (calls dc)) = Fails err ->
  let dc' := mkContainer (providers dc) (instances dc) (mutex dc)
                         (calls dc ++ [uid u]) in
  exec (8 + fuel) dc (memoizing t u c) = (dc', Ret (Fails err)) /\
  calls (fst (exec (8 + fuel) dc' (memoizing t u c')))
  = calls dc ++ [uid u; uid u].
Proof.
  intros Hm Hi Hb dc'. subst dc'. container dc. injection Hm as -> ->. split.
  - cbn -[invocations]. rewrite Hi. cbn -[invocations]. rewrite Hi.
    cbn -[invocations]. rewrite Hb. cbn.
    now rewrite exec_stuck.
  - cbn -[invocations]. rewrite Hi. cbn -[invocations]. rewrite Hi.
    cbn -[invocations]. destruct (behaviour u c' _); cbn.
    + destruct fuel; cbn; [| rewrite exec_stuck by reflexivity; cbn];
        now rewrite <- app_assoc.
    + rewrite exec_stuck by reflexivity. cbn. now rewrite <- app_assoc.
Qed.

Lemma memoizing_retries_after_failure_witness :
  let T := Named "main.Database" in
  let u := mkUserProvider 2 (fun _ n => match n with
                                        | 0 => Fails (Errorf "failed to connect")
                                        | S _ => Returns (Obj (PtrTo T) 1)
                                        end) in
  exec 8 NewDependencyContainer (memoizing T u 0)
  = (mkContainer ∅ ∅ (mkRWMutex 0 NoWriter) [2],
     Ret (Fails (Errorf "failed to connect"))).
Proof.
  intros T u.
  exact (proj1 (memoizing_retries_after_failure NewDependencyContainer T u 0 0
                  (Errorf "failed to connect") 0 eq_refl eq_refl eq_refl)).
Defined.

(** *** Resolve on a singleton that is cached; registering again *)



(** X20. The cache outlives the registration: [RegisterSingleton] for a
    key that already has a cached instance stores the new closure and
    leaves the instance where it is, so the new closure returns the old
    instance and the new provider is never invoked. *)
Theorem RegisterSingleton_again_keeps_instance (dc : Container)
        (provider : UserProvider) (w : rtype) (v : Instance) :
  mutex dc = mkRWMutex 0 NoWriter ->
  instances dc !! registrationKey w = Some v ->
  let key := registrationKey w in
  let dc1 := fst (exec 4 dc (RegisterSingleton provider (Some w))) in
  providers dc1 !! key = Some (Memoizing key provider) /\
  instances dc1 = instances dc /\
  forall c fuel,
    exec (3 + fuel) dc1 (invoke (Memoizing key provider) c)
    = (dc1, Ret (Returns v)).
Proof.
  intros Hm Hi key dc1. subst dc1. rewrite RegisterSingleton_stores by exact Hm.
  cbn [fst providers instances]. fold key.
  split; [apply lookup_insert_eq | split; [reflexivity |]].
  intros c fuel. rewrite Hm. cbn. fold key in Hi. rewrite Hi. cbn.
  now rewrite exec_stuck.
Qed.

Lemma RegisterSingleton_again_keeps_instance_witness :
  let T := Named "main.UserService" in
  let old := mkUserProvider 1 (fun _ _ => Returns (Obj (PtrTo T) 1)) in
  let new := mkUserProvider 2 (fun _ _ => Returns (Obj (PtrTo T) 2)) in
  let dc := fst (exec 9 (fst (exec 4 NewDependencyContainer
                                   (RegisterSingleton old (Some (PtrTo T)))))
                      (memoizing T old 0)) in
  let dc1 := fst (exec 4 dc (RegisterSingleton new (Some (PtrTo T)))) in
  exec 3 dc1 (invoke (Memoizing T new) 0) = (dc1, Ret (Returns (Obj (PtrTo T) 1))).
Proof.
  intros T old new dc dc1.
  exact (proj2 (proj2 (RegisterSingleton_again_keeps_instance dc new (PtrTo T)
                         (Obj (PtrTo T) 1) eq_refl eq_refl)) 0 0).
Defined.

End DependenciesMore.

(* ===================================================================== *)
(** ** More on the documentation generator *)
(* ===================================================================== *)

Module DocsMore.
Import GoStrings Docs Spec More DocsTheory.

(** *** Splitting and joining *)

Lemma Split_not_nil (s : string) (sep : ascii) : Split s sep <> [].
Proof.
  destruct s as [| c rest]; cbn; [discriminate |].
  destruct (Ascii.eqb c sep); [discriminate |].
  destruct (Split rest sep); discriminate.
Qed.

Lemma Split_lacks (s : string) (sep : ascii) : Forall (lacks sep) (Split s sep).
Proof.
  induction s as [| c rest IH]; cbn.
  - repeat constructor.
  - destruct (Ascii.eqb_spec c sep) as [E | N].
    + constructor; [exact I | exact IH].
    + destruct (Split rest sep) as [| piece pieces].
      * repeat constructor. exact N.
      * apply Forall_cons in IH as [Hp Hps].
        constructor; [split; assumption | exact Hps].
Qed.

Lemma Join_head (c : ascii) (piece : string) (pieces : list string) (sep : string) :
  Join (String c piece :: pieces) sep = String c (Join (piece :: pieces) sep).
Proof. destruct pieces; reflexivity. Qed.

Lemma Join_Split (s : string) (sep : ascii) :
  Join (Split s sep) (String sep EmptyString) = s.
Proof.
  induction s as [| c rest IH]; cbn [Split]; [reflexivity |].
  destruct (Ascii.eqb_spec c sep) as [E | N].
  - subst c. pose proof (Split_not_nil rest sep) as Hne.
    destruct (Split rest sep) as [| piece pieces]; [contradiction |].
    change (Join (EmptyString :: piece :: pieces) (String sep EmptyString))
      with (String sep (Join (piece :: pieces) (String sep EmptyString))).
    now rewrite IH.
  - pose proof (Split_not_nil rest sep) as Hne.
    destruct (Split rest sep) as [| piece pieces]; [contradiction |].
    rewrite Join_head, IH. reflexivity.
Qed.

Lemma Split_whole (s : string) (sep : ascii) : lacks sep s -> Split s sep = [s].
Proof.
  induction s as [| c rest IH]; cbn; [reflexivity |].
  intros [N Hrest]. destruct (Ascii.eqb_spec c sep); [contradiction |].
  now rewrite (IH Hrest).
Qed.

Lemma Split_piece (piece rest : string) (sep : ascii) :
  lacks sep piece ->
  Split (piece +:+ String sep rest) sep = piece :: Split rest sep.
Proof.
  induction piece as [| c piece IH].
  - intros _.
    change (Split (String sep rest) sep = EmptyString :: Split rest sep).
    cbn [Split]. now rewrite Ascii.eqb_refl.
  - intros [N Hpiece].
    change (Split (String c (piece +:+ String sep rest)) sep
            = String c piece :: Split rest sep).
    cbn [Split]. destruct (Ascii.eqb_spec c sep); [contradiction |].
    now rewrite (IH Hpiece).
Qed.

Lemma Split_Join (pieces : list string) (sep : ascii) :
  pieces <> [] -> Forall (lacks sep) pieces ->
  Split (Join pieces (String sep EmptyString)) sep = pieces.
Proof.
  induction pieces as [| p rest IH]; [contradiction |].
  intros _ Hall. apply Forall_cons in Hall as [Hp Hrest].
  destruct rest as [| q rest].
  - cbn [Join]. now apply Split_whole.
  - change (Join (p :: q :: rest) (String sep EmptyString))
      with (p +:+ String sep (Join (q :: rest) (String sep EmptyString))).
    rewrite Split_piece by exact Hp.
    rewrite IH; [reflexivity | discriminate | exact Hrest].
Qed.

Lemma lacks_append (c : ascii) (s1 s2 : string) :
  lacks c s1 -> lacks c s2 -> lacks c (s1 +:+ s2).
Proof.
  induction s1 as [| d s1 IH]; cbn [String.append lacks]; [auto |].
  intros [N H1] H2. split; [exact N | exact (IH H1 H2)].
Qed.

Lemma convertSegment_lacks (segment : string) :
  lacks "/" segment -> lacks "/" (convertSegment segment).
Proof.
  intros H. unfold convertSegment. destruct (HasPrefix segment ":"); [| exact H].
  change (lacks "/" (String "{" (from1 segment +:+ "}"))).
  split; [discriminate |].
  apply lacks_append; [| split; [discriminate | exact I]].
  destruct segment as [| c rest]; [exact I | exact (proj2 H)].
Qed.

Lemma convertSegment_no_sigil (segment : string) :
  HasPrefix (convertSegment segment) ":" = false.
Proof.
  unfold convertSegment. destruct (HasPrefix segment ":") eqn:E; [reflexivity | exact E].
Qed.

Lemma convertSegment_twice (segment : string) :
  convertSegment (convertSegment segment) = convertSegment segment.
Proof.
  unfold convertSegment at 1. now rewrite convertSegment_no_sigil.
Qed.

Lemma convertToOpenAPIPath_Join (path : string) :
  convertToOpenAPIPath path = Join (map convertSegment (Split path "/")) "/".
Proof. reflexivity. Qed.

Lemma Split_convertToOpenAPIPath (path : string) :
  Split (convertToOpenAPIPath path) "/" = map convertSegment (Split path "/").
Proof.
  rewrite convertToOpenAPIPath_Join. apply Split_Join.
  - pose proof (Split_not_nil path "/"). destruct (Split path "/");
      [contradiction | discriminate].
  - pose proof (Split_lacks path "/") as H.
    induction H; cbn [map]; constructor; auto using convertSegment_lacks.
Qed.

(** X5. The converted path has the segments of the path template, each
    one converted: a segment ":name" becomes "{name}" and every other
    segment is kept, so the number of segments is kept and no segment of
    the result starts with ":". A template without ":" segment is
    returned as it is, and converting twice changes nothing more. *)
Theorem convertToOpenAPIPath_segmentwise (path : string) :
  Split (convertToOpenAPIPath path) "/" = map convertSegment (Split path "/") /\
  Forall (fun segment => HasPrefix segment ":" = false)
         (Split (convertToOpenAPIPath path) "/") /\
  (tokens path = [] -> convertToOpenAPIPath path = path) /\
  convertToOpenAPIPath (convertToOpenAPIPath path) = convertToOpenAPIPath path.
Proof.
  pose proof (Split_convertToOpenAPIPath path) as Hsplit.
  split; [exact Hsplit | split; [| split]].
  - rewrite Hsplit. apply List.Forall_forall. intros s Hs.
    apply in_map_iff in Hs as [s' [<- _]]. apply convertSegment_no_sigil.
  - unfold tokens. intros Hnone. rewrite convertToOpenAPIPath_Join.
    rewrite <- (Join_Split path "/") at 2. f_equal.
    rewrite <- (map_id (Split path "/")) at 2. apply map_ext_in.
    intros s Hs. unfold convertSegment.
    destruct (HasPrefix s ":") eqn:E; [| reflexivity].
    assert (Hin : In s (List.filter (fun segment => HasPrefix segment ":")
                                    (Split path "/")))
      by (apply filter_In; split; assumption).
    rewrite Hnone in Hin. destruct Hin.
  - rewrite (convertToOpenAPIPath_Join (convertToOpenAPIPath path)), Hsplit.
    rewrite map_map. rewrite convertToOpenAPIPath_Join. f_equal.
    apply map_ext. intros s. apply convertSegment_twice.
Qed.

Example convertToOpenAPIPath_users :
  convertToOpenAPIPath "/api/v1/users/:id/posts/:postId"
  = "/api/v1/users/{id}/posts/{postId}".
Proof. reflexivity. Qed.

(** *** What the document holds *)

Lemma writers_In (rs : list Router.Route) (p m : string) (r : Router.Route) :
  In r (writers rs p m) <->
  In r rs /\ isDocumentationPath (Router.Path r) = false /\
  convertToOpenAPIPath (Router.Path r) = p /\ ToLower (Router.Method r) = m.
Proof.
  unfold writers. rewrite filter_In. split.
  - intros [Hin H]. apply andb_prop in H as [H Hm]. apply andb_prop in H as [Hd Hp].
    apply negb_true_iff in Hd. apply String.eqb_eq in Hp, Hm. auto.
  - intros (Hin & Hd & Hp & Hm). split; [exact Hin |].
    rewrite Hd, Hp, Hm, !String.eqb_refl. reflexivity.
Qed.

Lemma operationAt_origin (a : GoAPI) (p m : string) (operation : Operation) :
  operationAt (getSwaggerJSON a) p m = Some operation ->
  exists r, In r (routes a) /\ isDocumentationPath (Router.Path r) = false /\
            convertToOpenAPIPath (Router.Path r) = p /\
            ToLower (Router.Method r) = m /\ operation = operationOf r.
Proof.
  intros H. rewrite operationAt_last_writer in H.
  destruct (last (writers (routes a) p m)) as [r |] eqn:Hlast; [| discriminate].
  injection H as <-. exists r.
  apply last_Some in Hlast as [l' Hl'].
  assert (Hin : In r (writers (routes a) p m))
    by (rewrite Hl'; apply in_or_app; right; now left).
  apply writers_In in Hin as (? & ? & ? & ?). auto.
Qed.



Lemma operationOf_filled (r : Router.Route) :
  op_summary (operationOf r) <> "" /\ op_description (operationOf r) <> "" /\
  op_tags (operationOf r) <> [] /\
  op_responses (operationOf r)
  = {[ "200" := mkResponseDoc "Successful response" "object" ]}.
Proof.
  unfold operationOf.
  destruct (String.eqb_spec (Router.Summary r) "") as [Es | Ns];
    destruct (String.eqb_spec (Router.Description_ r) "") as [Ed | Nd];
    destruct (Router.Tags r) as [| tag tags] eqn:Et; cbn;
    repeat split; try assumption; discriminate.
Qed.

(** X7. No operation of the document has an empty summary, an empty
    description or no tag (the placeholders "API endpoint", "API endpoint
    description" and the tag "default" stand in), and each has exactly one
    response, "200", described as "Successful response" with an object
    schema: the responses a route declares with [WithResponse] are not
    carried into the document. *)
Theorem documented_operations_are_filled (a : GoAPI) (p m : string)
        (operation : Operation) :
  operationAt (getSwaggerJSON a) p m = Some operation ->
  op_summary operation <> "" /\ op_description operation <> "" /\
  op_tags operation <> [] /\
  op_responses operation
  = {[ "200" := mkResponseDoc "Successful response" "object" ]}.
Proof.
  intros H. apply operationAt_origin in H as (r & _ & _ & _ & _ & ->).
  apply operationOf_filled.
Qed.

Lemma documented_operations_are_filled_witness :
  let a := AddRoute (mkGoAPI DefaultConfig []) "DELETE" "/items/:id"
                    [Router.WithResponse 204 "Deleted"] in
  let operation := operationOf (Router.WithResponse 204 "Deleted"
                     (Router.mkRoute "DELETE" "/items/:id" [] "" "" ∅ [])) in
  op_summary operation <> "" /\ op_description operation <> "" /\
  op_tags operation <> [] /\
  op_responses operation
  = {[ "200" := mkResponseDoc "Successful response" "object" ]}.
Proof.
  intros a operation.
  exact (documented_operations_are_filled a "/items/{id}" "delete" operation
                                          eq_refl).
Defined.



(** *** Options *)

Lemma default_last_cons {A : Type} (d s : A) (l : list A) :
  default d (last (s :: l)) = default s (last l).
Proof.
  destruct l as [| x l]; [reflexivity |].
  change (last (s :: x :: l)) with (last (x :: l)).
  destruct (last (x :: l)) eqn:E; [reflexivity |].
  apply last_None in E. discriminate.
Qed.

(** X9. The options of this library never change the method or the path
    of a route. Applied in the order given, they append their tags and
    their parameters in that order (a request body is the parameter
    "body", in "body", required); for the summary and for the description
    the last option that sets it wins, and without such an option the
    field keeps its value. *)
Theorem options_compose (opts : list Option_) (route0 : Router.Route) :
  let route := fold_left (fun route routeOption => routeOption route)
                         (map denote opts) route0 in
  Router.Method route = Router.Method route0 /\
  Router.Path route = Router.Path route0 /\
  Router.Tags route = Router.Tags route0 ++ flat_map tagsOf opts /\
  Router.Parameters route = Router.Parameters route0 ++ flat_map parametersOf opts /\
  Router.Summary route = default (Router.Summary route0) (last (summariesOf opts)) /\
  Router.Description_ route
  = default (Router.Description_ route0) (last (descriptionsOf opts)).
Proof.
  revert route0. induction opts as [| o opts IH]; intros route0.
  - cbn. now rewrite !app_nil_r.
  - cbn [map fold_left]. specialize (IH (denote o route0)).
    cbn zeta in IH. destruct IH as (Hm & Hp & Ht & Hps & Hs & Hd).
    cbn zeta. rewrite Hm, Hp, Ht, Hps, Hs, Hd. clear Hm Hp Ht Hps Hs Hd.
    destruct o; cbn [denote tagsOf parametersOf flat_map summariesOf
                       descriptionsOf app
                       Router.WithTags Router.WithSummary Router.WithDescription
                       Router.WithResponse Router.WithParameter
                       Router.WithPathParameter Router.WithQueryParameter
                       Router.WithRequestBody Router.WithJSONSchema
                       Router.Method Router.Path Router.Tags Router.Parameters
                       Router.Summary Router.Description_];
      rewrite <- ?app_assoc; cbn [app];
      rewrite ?default_last_cons; repeat split; reflexivity.
Qed.

Example options_in_order :
  let a := AddRoute (mkGoAPI DefaultConfig []) "PUT" "/users/:id"
             (map denote [ OSummary "Update"; OTags ["users"];
                           OPathParameter "id" "integer" "User ID";
                           OJSONSchema None "Changes"; OSummary "Update a user";
                           OTags ["admin"] ]) in
  routes a
  = [ Router.mkRoute "PUT" "/users/:id" ["users"; "admin"] "Update a user" "" ∅
        [ Router.mkParameter "id" "path" "integer" "" true "User ID" None;
          Router.mkParameter "body" "body" "" "" true "Changes" None ] ].
Proof. reflexivity. Qed.

(** *** Schemas *)

Lemma fieldStep_properties (properties : gmap string FieldSchema)
      (required : list string) (field : Reflect.StructField) (v : Reflect.Value) :
  fst (fieldStep (properties, required) (field, v))
  = <[documentedName field := getFieldSchema v field]> properties.
Proof.
  unfold fieldStep, documentedName.
  destruct (String.eqb_spec (Reflect.Tag_Get (Reflect.Tag field) "json") "")
    as [E | N]; cbn [negb andb orb]; [reflexivity |].
  destruct (String.eqb_spec (Reflect.Tag_Get (Reflect.Tag field) "json") "-")
    as [E' | N']; cbn [negb andb orb]; [reflexivity |].
  destruct (isOptional _), (String.eqb _ ""); reflexivity.
Qed.

(** The fields documented under a name. *)
Lemma fields_properties (fields : list (Reflect.StructField * Reflect.Value))
      (name : string) :
  fst (fold_left fieldStep fields (∅, [])) !! name
  = ((fun fv => getFieldSchema (snd fv) (fst fv))
       <$> last (List.filter (fun fv => String.eqb (documentedName (fst fv)) name)
                             fields)).
Proof.
  induction fields as [| [field v] fields IH] using rev_ind.
  - cbn. apply lookup_empty.
  - rewrite fold_left_app, List.filter_app. cbn [fold_left List.filter fst].
    pose proof (fieldStep_properties (fst (fold_left fieldStep fields (∅, [])))
                  (snd (fold_left fieldStep fields (∅, []))) field v) as Hstep.
    destruct (fold_left fieldStep fields (∅, [])) as [properties required].
    cbn [fst snd] in *. rewrite Hstep.
    destruct (String.eqb_spec (documentedName field) name) as [E | N].
    + rewrite E, lookup_insert_eq, last_snoc. reflexivity.
    + rewrite lookup_insert_ne by exact N. now rewrite app_nil_r.
Qed.

Lemma generateSchemaFromStruct_properties
      (fields : list (Reflect.StructField * Reflect.Value)) :
  sd_properties (generateSchemaFromStruct (Some (Reflect.Record_ fields)))
  = fst (fold_left fieldStep fields (∅, [])).
Proof.
  unfold generateSchemaFromStruct.
  destruct (fold_left fieldStep fields (∅, [])) as [properties required].
  destruct (0 <? length required)%nat; reflexivity.
Qed.

(** X10. In the schema of a struct, the properties are the documented
    names of the fields, each with the field schema of its field; when two
    fields are documented under one name the later one is kept; and every
    name of the required list is a property. *)
Theorem schema_properties_are_the_fields
        (fields : list (Reflect.StructField * Reflect.Value)) :
  let schema := generateSchemaFromStruct (Some (Reflect.Record_ fields)) in
  (forall name,
     sd_properties schema !! name
     = ((fun fv => getFieldSchema (snd fv) (fst fv))
          <$> last (List.filter
                      (fun fv => String.eqb (documentedName (fst fv)) name) fields))) /\
  (forall name,
     is_Some (sd_properties schema !! name)
     <-> In name (map (fun fv => documentedName (fst fv)) fields)) /\
  (forall name,
     In name (requiredFields schema) -> is_Some (sd_properties schema !! name)).
Proof.
  intros schema. subst schema.
  assert (Hdom : forall name,
             is_Some (sd_properties
                        (generateSchemaFromStruct (Some (Reflect.Record_ fields)))
                      !! name)
             <-> In name (map (fun fv => documentedName (fst fv)) fields)).
  { intros name. rewrite generateSchemaFromStruct_properties, fields_properties.
    rewrite fmap_is_Some, last_is_Some. rewrite in_map_iff. split.
    - intros Hne.
      destruct (List.filter _ fields) as [| fv rest] eqn:Hf; [contradiction |].
      assert (Hin : In fv (List.filter
                             (fun fv => String.eqb (documentedName (fst fv)) name)
                             fields)) by (rewrite Hf; now left).
      apply filter_In in Hin as [Hin Heq]. apply String.eqb_eq in Heq.
      exists fv. auto.
    - intros (fv & Heq & Hin) Hnil.
      assert (Hf : In fv (List.filter
                            (fun fv => String.eqb (documentedName (fst fv)) name)
                            fields)).
      { apply filter_In. split; [exact Hin |]. now apply String.eqb_eq. }
      rewrite Hnil in Hf. destruct Hf. }
  split; [| split; [exact Hdom |]].
  - intros name. rewrite generateSchemaFromStruct_properties.
    apply fields_properties.
  - intros name Hreq. apply Hdom.
    rewrite generateSchemaFromStruct_record in Hreq.
    apply in_map_iff in Hreq as (field & Heq & Hin).
    apply filter_In in Hin as [Hin _].
    apply in_map_iff in Hin as (fv & Hfst & Hin).
    apply in_map_iff. exists fv. subst. auto.
Qed.

Example schema_of_CreateUserRequest :
  let field name tag example :=
    Reflect.mkStructField name [("json", tag); ("example", example)] in
  let schema :=
    generateSchemaFromStruct
      (Some (Reflect.Record_
               [ (field "Name" "name" "Juan", Reflect.Basic Reflect.BString);
                 (field "Email" "email,omitempty" "", Reflect.Basic Reflect.BString);
                 (field "Age" "age" "25", Reflect.Basic Reflect.BInt) ])) in
  sd_required schema = Some ["name"; "age"] /\
  sd_properties schema
  = {[ "name" := mkFieldSchema (Some "Juan") (Some "string") None None;
       "email" := mkFieldSchema None (Some "string") None None;
       "age" := mkFieldSchema (Some "25") (Some "integer") (Some "int64") None ]}.
Proof. vm_compute. split; reflexivity. Qed.

(** X11. An example that is not a struct and not a non-nil pointer to a
    struct never fails the synthesizer: a nil example gives the bare
    object schema, and a scalar, a nil pointer or a pointer to a pointer
    gives the object schema with the example itself and no property and no
    required list. *)
Theorem schema_of_other_examples (example : option Reflect.Value) :
  match example with
  | None => generateSchemaFromStruct example = mkSchemaDoc "object" ∅ None None
  | Some (Reflect.Record_ _)
  | Some (Reflect.Pointer (Some (Reflect.Record_ _))) => True
  | Some v => generateSchemaFromStruct example = mkSchemaDoc "object" ∅ (Some v) None
  end.
Proof.
  destruct example as [[k | [[k | pointee | fields] |] | fields] |];
    try exact I; reflexivity.
Qed.

(** The shapes a field schema can have. *)
Lemma getFieldSchema_shape (fieldValue : Reflect.Value)
      (field : Reflect.StructField) :
  In (typing (getFieldSchema fieldValue field))
     [ (Some "string", None, None); (Some "integer", Some "int64", None);
       (Some "number", Some "float", None); (Some "number", Some "double", None);
       (Some "boolean", None, None); (Some "array", None, Some "string") ] /\
  fs_example (getFieldSchema fieldValue field)
  = (let example := Reflect.Tag_Get (Reflect.Tag field) "example" in
     if String.eqb example "" then None else Some example).
Proof.
  revert fieldValue. fix IH 1. intros [k | [elem |] | fields].
  - destruct k; cbn;
      destruct (String.eqb (Reflect.Tag_Get (Reflect.Tag field) "example") "");
      cbn; split; try reflexivity; tauto.
  - exact (IH elem).
  - cbn. destruct (String.eqb (Reflect.Tag_Get (Reflect.Tag field) "example") "");
      cbn; split; try reflexivity; tauto.
  - cbn. destruct (String.eqb (Reflect.Tag_Get (Reflect.Tag field) "example") "");
      cbn; split; try reflexivity; tauto.
Qed.

(** X12. Whatever the value of a field, through any number of pointers,
    its field schema has a type, and type, format and items are one of six
    combinations: "string", "integer" with "int64", "number" with "float"
    or "double", "boolean", and "array" with items of type "string". Its
    example is the field's example tag, and is absent when the tag is
    empty or missing. *)
Theorem field_schema_is_well_formed (fieldValue : Reflect.Value)
        (field : Reflect.StructField) :
  (exists type, fs_type (getFieldSchema fieldValue field) = Some type) /\
  In (typing (getFieldSchema fieldValue field))
     [ (Some "string", None, None); (Some "integer", Some "int64", None);
       (Some "number", Some "float", None); (Some "number", Some "double", None);
       (Some "boolean", None, None); (Some "array", None, Some "string") ] /\
  fs_example (getFieldSchema fieldValue field)
  = (let example := Reflect.Tag_Get (Reflect.Tag field) "example" in
     if String.eqb example "" then None else Some example).
Proof.
  pose proof (getFieldSchema_shape fieldValue field) as [Hshape Hexample].
  split; [| split; [exact Hshape | exact Hexample]].
  unfold typing in Hshape. cbn [In] in Hshape.
  destruct Hshape as [H | [H | [H | [H | [H | [H | []]]]]]];
    injection H as <- _ _; eexists; reflexivity.
Qed.

(** *** The template generator *)

(** The routes that write the path item of [p] in the template. *)
Lemma templateStep_lookup (rs : list Router.Route) (p : string) :
  fold_left templateStep rs ∅ !! p
  = ((fun r => {[ ToLower (Router.Method r) := operationOf r ]})
       <$> last (List.filter
                   (fun r => negb (isTemplateSkipped (Router.Path r))
                             && String.eqb (Router.Path r) p) rs)).
Proof.
  induction rs as [| r rs IH] using rev_ind.
  - cbn. apply lookup_empty.
  - rewrite fold_left_app, List.filter_app. cbn [fold_left List.filter].
    unfold templateStep at 1.
    destruct (isTemplateSkipped (Router.Path r)); cbn [negb andb].
    { now rewrite app_nil_r. }
    destruct (String.eqb_spec (Router.Path r) p) as [E | N].
    + rewrite E, lookup_insert_eq, last_snoc. reflexivity.
    + rewrite lookup_insert_ne by exact N. now rewrite app_nil_r.
Qed.

(** X13. In the template of [generateSwaggerTemplate] a path item is made
    anew for every route and stored under the path as registered, not
    converted: the item of a path holds one operation only, that of the
    last route registered with that path, under its lower-case method.
    Earlier routes with the same path, whatever their method, are lost.
    "/openapi.json" and "/docs-static/*filepath" are not skipped here. *)
Theorem template_keeps_one_operation_per_path (a : GoAPI) (p : string) :
  let registered :=
    List.filter (fun r => negb (isTemplateSkipped (Router.Path r))
                          && String.eqb (Router.Path r) p) (routes a) in
  (forall item,
     generateSwaggerTemplate_paths a !! p = Some item ->
     exists r, last registered = Some r /\
               item = {[ ToLower (Router.Method r) := operationOf r ]} /\
               size item = 1) /\
  (registered = [] -> generateSwaggerTemplate_paths a !! p = None).
Proof.
  intros registered. unfold generateSwaggerTemplate_paths.
  rewrite templateStep_lookup. fold registered. split.
  - intros item H. destruct (last registered) as [r |]; [| discriminate].
    injection H as <-. exists r. repeat split. apply map_size_singleton.
  - intros ->. reflexivity.
Qed.

Example template_loses_the_first_method :
  let a := AddRoute (AddRoute (mkGoAPI DefaultConfig []) "GET" "/users/:id" [])
                    "DELETE" "/users/:id" [] in
  dom <$> generateSwaggerTemplate_paths a !! "/users/:id"
  = Some ({[ "delete" ]} : gset string) /\
  dom <$> paths (getSwaggerJSON a) !! "/users/{id}"
  = Some ({[ "get"; "delete" ]} : gset string).
Proof. vm_compute. split; reflexivity. Qed.

(** *** Route groups *)

Lemma append_assoc (s1 s2 s3 : string) : (s1 +:+ s2) +:+ s3 = s1 +:+ (s2 +:+ s3).
Proof.
  induction s1 as [| c s1 IH]; [reflexivity |].
  change (String c ((s1 +:+ s2) +:+ s3) = String c (s1 +:+ (s2 +:+ s3))).
  now rewrite IH.
Qed.

Lemma Split_double_separator (x y : string) (sep : ascii) :
  emptyInside (Split (x +:+ String sep (String sep y)) sep).
Proof.
  induction x as [| c x IH].
  - change (emptyInside (Split (String sep (String sep y)) sep)).
    cbn [Split]. rewrite Ascii.eqb_refl.
    exists EmptyString, (EmptyString :: Split y sep). split; [reflexivity | now left].
  - change (emptyInside (Split (String c (x +:+ String sep (String sep y))) sep)).
    cbn [Split]. destruct IH as (first & rest & -> & Hin).
    destruct (Ascii.eqb c sep).
    + exists EmptyString, (first :: rest). split; [reflexivity | now right].
    + exists (String c first), rest. split; [reflexivity | exact Hin].
Qed.

(** X14. Groups concatenate prefixes and paths as they are: a group made
    in a group has the two prefixes one after the other, and a route
    registered through it is the route [AddRoute] registers with prefix
    and path concatenated. Nothing is normalized: when the prefix ends
    with "/" and the path starts with "/", the registered path, and the
    path of the document, have an empty segment. *)
Theorem groups_concatenate_prefixes (g : RouterGroup) (p1 p2 path method : string)
        (api : GoAPI) (opts : list Router.RouteOption) :
  Group (Group g p1) p2 = Group g (p1 +:+ p2) /\
  GroupHandle method (Group (Group g p1) p2) api path opts
  = AddRoute api method (pathPrefix g +:+ p1 +:+ p2 +:+ path) opts /\
  (forall x y,
     pathPrefix g = x +:+ "/" -> path = "/" +:+ y ->
     emptyInside (Split (pathPrefix g +:+ path) "/") /\
     emptyInside (Split (convertToOpenAPIPath (pathPrefix g +:+ path)) "/")).
Proof.
  split; [| split].
  - unfold Group, NewRouterGroup. cbn [pathPrefix]. now rewrite append_assoc.
  - unfold GroupHandle, Group, NewRouterGroup. cbn [pathPrefix].
    now rewrite !append_assoc.
  - intros x y -> ->.
    assert (H : emptyInside (Split ((x +:+ "/") +:+ "/" +:+ y) "/")).
    { rewrite append_assoc. apply Split_double_separator. }
    split; [exact H |].
    rewrite Split_convertToOpenAPIPath.
    destruct H as (first & rest & -> & Hin).
    exists (convertSegment first), (map convertSegment rest).
    split; [reflexivity |].
    change EmptyString with (convertSegment EmptyString). now apply in_map.
Qed.

Lemma groups_concatenate_prefixes_witness :
  let users := Group (APIGroup "/api/") "/v1/" in
  let a := GroupGET users (mkGoAPI DefaultConfig []) "/users/:id" [] in
  routes a = [Router.mkRoute "GET" "/api//v1//users/:id" [] "" "" ∅ []] /\
  emptyInside (Split (convertToOpenAPIPath "/api//v1//users/:id") "/").
Proof.
  intros users a. split; [reflexivity |].
  exact (proj2 (proj2 (proj2 (groups_concatenate_prefixes
           users "" "" "/users/:id" "GET" (mkGoAPI DefaultConfig []) []))
           "/api//v1" "users/:id" eq_refl eq_refl)).
Defined.

End DocsMore.

(* ===================================================================== *)
(** ** Theorems on the combined error and the query parameters *)
(* ===================================================================== *)

Module QueryTheory.
Import GoStrings Query.

(** *** The combined error *)

Lemma Join_app (l1 l2 : list string) (sep : string) :
  l1 <> [] -> l2 <> [] ->
  Join (l1 ++ l2) sep = Join l1 sep +:+ sep +:+ Join l2 sep.
Proof.
  intros H1 H2. induction l1 as [| x l1 IH]; [contradiction |].
  destruct l1 as [| y l1].
  - destruct l2; [contradiction | reflexivity].
  - change (Join ((x :: y :: l1) ++ l2) sep)
      with (x +:+ sep +:+ Join ((y :: l1) ++ l2) sep).
    rewrite IH by discriminate.
    change (Join (x :: y :: l1) sep) with (x +:+ sep +:+ Join (y :: l1) sep).
    now rewrite !DocsMore.append_assoc.
Qed.

Lemma Error_Join (ve : Validation.ValidationErrors) :
  Error ve = Join (map Validation.Message ve) "; ".
Proof. unfold Error. now rewrite fold_left_append. Qed.

(** X15. The message of a [ValidationErrors] used as one error is the
    messages of its errors, in order, joined by "; ": empty for no error,
    the message itself for one error, and for two sequences of errors put
    together the two combined messages with "; " between them. *)
Theorem Error_joins_messages (ve1 ve2 : Validation.ValidationErrors)
        (e : Validation.ValidationError) :
  Error [] = "" /\
  Error [e] = Validation.Message e /\
  (ve1 <> [] -> ve2 <> [] -> Error (ve1 ++ ve2) = Error ve1 +:+ "; " +:+ Error ve2).
Proof.
  split; [reflexivity | split; [reflexivity |]].
  intros H1 H2. rewrite !Error_Join, map_app. apply Join_app.
  - destruct ve1; [contradiction | discriminate].
  - destruct ve2; [contradiction | discriminate].
Qed.

Lemma Error_joins_messages_witness :
  Error (Validation.FormatValidationErrors
           (Validation.ValidatorErrors
              [ Validation.mkFieldError "name" "required" "" "";
                Validation.mkFieldError "age" "min" "18" "3" ]))
  = "El campo 'name' es requerido; El campo 'age' debe tener un valor mínimo de 18".
Proof.
  exact (proj2 (proj2 (Error_joins_messages
           [Validation.mkValidationError "name" "required" ""
              "El campo 'name' es requerido"]
           [Validation.mkValidationError "age" "min" "3"
              "El campo 'age' debe tener un valor mínimo de 18"]
           (Validation.mkValidationError "" "" "" "")))
         ltac:(discriminate) ltac:(discriminate)).
Defined.

(** *** ParseQueryParams *)

Section Strconv.
Variable F : Type.
Variables (Atoi ParseInt : string -> option Z).
Variable ParseFloat : string -> option F.
Variable ParseBool : string -> option bool.

Let parse := parseValue F Atoi ParseInt ParseFloat ParseBool.
Let step := queryStep F Atoi ParseInt ParseFloat ParseBool.
Let failure := failureOf F Atoi ParseInt ParseFloat ParseBool.
Let value := valueOf F Atoi ParseInt ParseFloat ParseBool.
Let ParseQuery := ParseQueryParams F Atoi ParseInt ParseFloat ParseBool.

Lemma queryStep_spec (q : gmap string (list string))
      (result : gmap string (QValue F)) (errs : Validation.ValidationErrors)
      (p : QueryParam F) :
  step q (result, errs) p
  = (match value q p with
     | Some v => <[Name p := v]> result
     | None => result
     end,
     errs ++ option_list (failure q p)).
Proof.
  unfold step, queryStep, value, valueOf, failure, failureOf, firstValue.
  destruct (q !! Name p) as [[| v vs] |] eqn:Hq;
    cbn [default from_option id hd length Nat.eqb].
  - rewrite bool_decide_eq_true_2 by eauto. cbn [negb orb].
    destruct (Required p); cbn [andb option_list];
      [reflexivity |]. destruct (DefaultValue p); now rewrite app_nil_r.
  - rewrite bool_decide_eq_true_2 by eauto. cbn [negb orb].
    destruct (String.eqb v ""); cbn [andb].
    + destruct (Required p); cbn [andb option_list];
        [reflexivity |]. destruct (DefaultValue p); now rewrite app_nil_r.
    + rewrite andb_false_r.
      destruct (parseValue F Atoi ParseInt ParseFloat ParseBool v (Type_ p));
        cbn [option_list]; [now rewrite app_nil_r | reflexivity].
  - rewrite bool_decide_eq_false_2 by (intros [x Hx]; discriminate).
    cbn [negb orb].
    destruct (Required p); cbn [andb option_list];
      [reflexivity |]. destruct (DefaultValue p); now rewrite app_nil_r.
Qed.

(** The map the loop builds. *)
Lemma queryLoop_spec (q : gmap string (list string)) (params : list (QueryParam F))
      (result : gmap string (QValue F)) (errs : Validation.ValidationErrors) :
  fold_left (step q) params (result, errs)
  = (fold_left (fun r p => match value q p with
                           | Some v => <[Name p := v]> r
                           | None => r
                           end) params result,
     errs ++ omap (failure q) params).
Proof.
  revert result errs. induction params as [| p params IH]; intros result errs.
  - cbn. now rewrite app_nil_r.
  - cbn [fold_left]. rewrite queryStep_spec, IH. f_equal.
    rewrite <- app_assoc. f_equal. cbn [omap list_omap].
    destruct (failure q p); reflexivity.
Qed.

Lemma ParseQuery_spec (q : gmap string (list string)) (params : list (QueryParam F)) :
  ParseQuery q params
  = match omap (failure q) params with
    | [] => Parsed (fold_left (fun r p => match value q p with
                                          | Some v => <[Name p := v]> r
                                          | None => r
                                          end) params ∅)
    | errs => Invalid errs
    end.
Proof.
  unfold ParseQuery, ParseQueryParams. fold step. rewrite queryLoop_spec.
  cbn [app]. destruct (omap (failure q) params); reflexivity.
Qed.

Lemma values_lookup_other (q : gmap string (list string))
      (params : list (QueryParam F)) (result : gmap string (QValue F))
      (name : string) :
  ~ In name (map Name params) ->
  fold_left (fun r p => match value q p with
                        | Some v => <[Name p := v]> r
                        | None => r
                        end) params result !! name
  = result !! name.
Proof.
  revert result. induction params as [| p params IH]; intros result Hnot;
    [reflexivity |].
  cbn [fold_left]. rewrite IH by (intros H; apply Hnot; now right).
  destruct (value q p); [| reflexivity].
  apply lookup_insert_ne. intros E. apply Hnot. now left.
Qed.

Lemma values_lookup (q : gmap string (list string))
      (params : list (QueryParam F)) (result : gmap string (QValue F))
      (p : QueryParam F) :
  NoDup (map Name params) -> In p params ->
  fold_left (fun r p => match value q p with
                        | Some v => <[Name p := v]> r
                        | None => r
                        end) params result !! Name p
  = match value q p with
    | Some v => Some v
    | None => result !! Name p
    end.
Proof.
  revert result. induction params as [| p' params IH]; intros result Hnd Hin;
    [destruct Hin |].
  cbn [map] in Hnd. apply NoDup_cons in Hnd as [Hfresh Hnd].
  cbn [fold_left]. destruct Hin as [-> | Hin].
  - rewrite values_lookup_other by (now rewrite <- list_elem_of_In).
    destruct (value q p); [apply lookup_insert_eq | reflexivity].
  - rewrite IH by assumption. destruct (value q p); [reflexivity |].
    destruct (value q p'); [| reflexivity].
    apply lookup_insert_ne. intros E. apply Hfresh. rewrite E.
    apply list_elem_of_In, in_map, Hin.
Qed.

(** X16. [ParseQueryParams] reports every failing parameter, not the
    first only: it returns the errors exactly when some declared parameter
    fails, and then one error for each failing parameter, in the order of
    the declarations, "required" for a required parameter that is not
    given (no value, or an empty first value) and "type" for a value that
    does not parse; a default does not stand in for a required parameter. *)
Theorem ParseQueryParams_reports_every_failure (q : gmap string (list string))
        (params : list (QueryParam F)) :
  (forall errs,
     ParseQuery q params = Invalid errs
     <-> errs = omap (failure q) params /\ errs <> []) /\
  ((exists result, ParseQuery q params = Parsed result)
   <-> omap (failure q) params = []) /\
  (forall p,
     In p params -> Required p = true -> firstValue q (Name p) = None ->
     exists errs,
       ParseQuery q params = Invalid errs /\
       In (Validation.mkValidationError (Name p) "required" ""
             ("El parámetro de consulta '" +:+ Name p +:+ "' es requerido")) errs).
Proof.
  rewrite ParseQuery_spec. split; [| split].
  - intros errs. destruct (omap (failure q) params) as [| e es]; split.
    + discriminate.
    + intros [-> H]. contradiction.
    + intros H. injection H as <-. split; [reflexivity | discriminate].
    + intros [-> _]. reflexivity.
  - destruct (omap (failure q) params) as [| e es]; split.
    + reflexivity.
    + eauto.
    + intros [result H]. discriminate.
    + discriminate.
  - intros p Hin Hreq Hnone.
    assert (Hfail : In (Validation.mkValidationError (Name p) "required" ""
                          ("El parámetro de consulta '" +:+ Name p
                           +:+ "' es requerido"))
                       (omap (failure q) params)).
    { apply list_elem_of_In, list_elem_of_omap. exists p.
      split; [now apply list_elem_of_In |].
      unfold failure, failureOf. now rewrite Hnone, Hreq. }
    destruct (omap (failure q) params) as [| e es]; [destruct Hfail |].
    eexists. split; [reflexivity | exact Hfail].
Qed.

(** X17. When [ParseQueryParams] succeeds, the result has no key but the
    declared names: query values that are not declared are ignored. With
    distinct declared names, a parameter that is given has its parsed
    first value, an optional parameter that is not given has its default
    if it has one and no entry otherwise; and every required parameter was
    given. *)
Theorem ParseQueryParams_result (q : gmap string (list string))
        (params : list (QueryParam F)) (result : gmap string (QValue F)) :
  ParseQuery q params = Parsed result ->
  (forall name, ~ In name (map Name params) -> result !! name = None) /\
  (NoDup (map Name params) ->
   forall p, In p params -> result !! Name p = value q p) /\
  (forall p, In p params -> Required p = true ->
             exists v, firstValue q (Name p) = Some v).
Proof.
  rewrite ParseQuery_spec.
  destruct (omap (failure q) params) as [| e es] eqn:Hnone; [| discriminate].
  intros H. injection H as <-. split; [| split].
  - intros name Hnot. rewrite values_lookup_other by exact Hnot.
    apply lookup_empty.
  - intros Hnd p Hin. rewrite values_lookup by assumption.
    destruct (value q p); [reflexivity | apply lookup_empty].
  - intros p Hin Hreq.
    destruct (firstValue q (Name p)) as [v |] eqn:Hv; [eauto |].
    assert (Hfail : is_Some (failure q p))
      by (unfold failure, failureOf; rewrite Hv, Hreq; eauto).
    destruct Hfail as [e He].
    assert (Hin' : e ∈ omap (failure q) params).
    { apply list_elem_of_omap. exists p. split; [now apply list_elem_of_In | exact He]. }
    rewrite Hnone in Hin'. inversion Hin'.
Qed.

Lemma lenient_type (p : QueryParam F) (v : string) :
  ~ In (Type_ p) ["int"; "int64"; "float64"; "bool"] ->
  parse v (Type_ p) = Some (VString v).
Proof.
  intros Hty. unfold parse, parseValue. cbn [In] in Hty.
  destruct (String.eqb_spec (Type_ p) "string"); [reflexivity |].
  destruct (String.eqb_spec (Type_ p) "int"); [exfalso; intuition congruence |].
  destruct (String.eqb_spec (Type_ p) "int64"); [exfalso; intuition congruence |].
  destruct (String.eqb_spec (Type_ p) "float64"); [exfalso; intuition congruence |].
  destruct (String.eqb_spec (Type_ p) "bool"); [exfalso; intuition congruence |].
  reflexivity.
Qed.

(** X18. A value is never refused for a type other than "int", "int64",
    "float64" and "bool": it is passed through as a string. So a list of
    optional parameters of such types always parses. *)
Theorem ParseQueryParams_lenient_types (q : gmap string (list string))
        (params : list (QueryParam F)) :
  Forall (fun p => Required p = false /\
                   ~ In (Type_ p) ["int"; "int64"; "float64"; "bool"]) params ->
  (forall p v, In p params -> parse v (Type_ p) = Some (VString v)) /\
  exists result, ParseQuery q params = Parsed result.
Proof.
  intros Hall. rewrite List.Forall_forall in Hall.
  assert (Hparse : forall p v, In p params -> parse v (Type_ p) = Some (VString v)).
  { intros p v Hin. destruct (Hall p Hin) as [_ Hty]. now apply lenient_type. }
  split; [exact Hparse |].
  rewrite ParseQuery_spec.
  assert (Hnone : omap (failure q) params = []).
  { clear Hparse. induction params as [| p params IH]; [reflexivity |].
    cbn [omap list_omap].
    assert (Hp : failure q p = None).
    { destruct (Hall p (or_introl eq_refl)) as [Hreq Hty].
      unfold failure, failureOf. rewrite Hreq.
      destruct (firstValue q (Name p)) as [v |]; [| reflexivity].
      pose proof (lenient_type p v Hty) as Hv.
      unfold parse in Hv. now rewrite Hv. }
    rewrite Hp. apply IH. intros p' Hin. apply Hall. now right. }
  rewrite Hnone. eauto.
Qed.


End Strconv.

(** The parser with the decimal and boolean functions of [strconv]; no
    float is parsed in the examples. *)
Lemma ParseQueryParams_reports_every_failure_witness :
  let params : list (QueryParam Empty_set) :=
    [ mkQueryParam "page" "int" true (Some (VInt 1)) "" None;
      mkQueryParam "page_size" "int" false (Some (VInt 10)) "" None;
      mkQueryParam "active" "bool" false None "" None ] in
  let q : gmap string (list string) :=
    {[ "page" := [""]; "page_size" := ["ten"; "10"]; "active" := ["true"] ]} in
  ParseQueryParams Empty_set strconv_Atoi strconv_Atoi (fun _ => None)
                   strconv_ParseBool q params
  = Invalid
      [ Validation.mkValidationError "page" "required" ""
          "El parámetro de consulta 'page' es requerido";
        Validation.mkValidationError "page_size" "type" "ten"
          "El parámetro 'page_size' debe ser de tipo int" ].
Proof.
  intros params q.
  apply (proj1 (ParseQueryParams_reports_every_failure Empty_set strconv_Atoi
                  strconv_Atoi (fun _ => None) strconv_ParseBool q params)).
  split; [vm_compute; reflexivity | discriminate].
Defined.

Lemma ParseQueryParams_result_witness :
  let params : list (QueryParam Empty_set) :=
    [ mkQueryParam "page" "int" true None "" None;
      mkQueryParam "page_size" "int" false (Some (VInt 10)) "" None;
      mkQueryParam "sort" "string" false None "" None ] in
  let q : gmap string (list string) :=
    {[ "page" := ["2"; "3"]; "debug" := ["1"] ]} in
  let result : gmap string (QValue Empty_set) :=
    {[ "page" := VInt 2; "page_size" := VInt 10 ]} in
  result !! "debug" = None /\
  result !! "page"
  = valueOf Empty_set strconv_Atoi strconv_Atoi (fun _ => None) strconv_ParseBool
            q (mkQueryParam "page" "int" true None "" None : QueryParam Empty_set).
Proof.
  intros params q result.
  assert (H : ParseQueryParams Empty_set strconv_Atoi strconv_Atoi (fun _ => None)
                               strconv_ParseBool q params = Parsed result)
    by (vm_compute; reflexivity).
  destruct (ParseQueryParams_result Empty_set strconv_Atoi strconv_Atoi
              (fun _ => None) strconv_ParseBool q params result H)
    as (Hother & Hvalue & _).
  split.
  - apply Hother. cbn. intuition discriminate.
  - assert (Hnd : NoDup (map Name params))
      by (apply (bool_decide_unpack _); vm_compute; exact I).
    exact (Hvalue Hnd (mkQueryParam "page" "int" true None "" None)
                  (or_introl eq_refl)).
Defined.

Lemma ParseQueryParams_lenient_types_witness :
  exists result,
    ParseQueryParams Empty_set strconv_Atoi strconv_Atoi (fun _ => None)
                     strconv_ParseBool
                     {[ "sort" := ["name"]; "cursor" := ["42"] ]}
                     [ mkQueryParam "sort" "string" false None "" None;
                       mkQueryParam "cursor" "uuid" false None "" None ]
    = (Parsed result : ParseResult Empty_set).
Proof.
  apply (ParseQueryParams_lenient_types Empty_set strconv_Atoi strconv_Atoi
           (fun _ => None) strconv_ParseBool).
  repeat constructor; cbn; intuition discriminate.
Defined.

Example strconv_models :
  map strconv_Atoi ["42"; "-7"; "+3"; ""; "-"; "4x"; "9223372036854775808"]
  = [Some 42%Z; Some (-7)%Z; Some 3%Z; None; None; None; None] /\
  map strconv_ParseBool ["true"; "T"; "0"; "False"; "yes"; ""]
  = [Some true; Some true; Some false; Some false; None; None].
Proof. vm_compute. split; reflexivity. Qed.

End QueryTheory.

(* ===================================================================== *)
(** ** Theorems on the user service and the listing handler *)
(* ===================================================================== *)

Module UsersTheory.
Import Users.

(** *** Looking up *)

Lemma findUser_None (id : Z) (us : list User) :
  findUser id us = None <-> ~ In id (map ID us).
Proof.
  induction us as [| user rest IH]; cbn; [tauto |].
  destruct (Z.eqb_spec (ID user) id) as [E | N].
  - split; [discriminate | intros H; exfalso; apply H; now left].
  - rewrite IH. tauto.
Qed.

Lemma findUser_Some (id : Z) (us : list User) (user : User) :
  findUser id us = Some user -> In user us /\ ID user = id.
Proof.
  induction us as [| first rest IH]; cbn; [discriminate |].
  destruct (Z.eqb_spec (ID first) id) as [E | N].
  - intros H. injection H as <-. split; [now left | exact E].
  - intros H. destruct (IH H). split; [now right | assumption].
Qed.

Lemma findUser_app (id : Z) (us : list User) (user : User) :
  findUser id (us ++ [user])
  = match findUser id us with
    | Some found => Some found
    | None => if (ID user =? id)%Z then Some user else None
    end.
Proof.
  induction us as [| first rest IH]; cbn; [reflexivity |].
  destruct (ID first =? id)%Z; [reflexivity | exact IH].
Qed.

Lemma wrap_small (z : Z) : (- 2 ^ 63 <= z < 2 ^ 63)%Z -> wrap z = z.
Proof.
  intros H. unfold wrap. rewrite Z.mod_small by lia. lia.
Qed.

(** *** Create *)

(** X21. While the next ID has not reached the largest [int], [Create] on
    a service whose IDs are distinct and below the next ID gives the new
    user the next ID, appends it, moves the next ID up by one and keeps
    the IDs distinct and below it; the new user is then found by its ID
    and every other lookup is as before. *)
Theorem Create_assigns_fresh_id (s : UserService) (req : CreateUserRequest) :
  wellKept s ->
  (- 2 ^ 63 <= nextID s + 1 < 2 ^ 63)%Z ->
  let s' := fst (Create s req) in
  let user := snd (Create s req) in
  user = mkUser (nextID s) (c_Name req) (c_Email req) (c_Age req) true /\
  users s' = users s ++ [user] /\
  nextID s' = (nextID s + 1)%Z /\
  wellKept s' /\
  GetByID s' (ID user) = Some user /\
  (forall id, id <> ID user -> GetByID s' id = GetByID s id).
Proof.
  intros [Hnd Hall] Hnext s' user. subst s' user. unfold Create, GetByID.
  cbn [fst snd users nextID ID]. rewrite wrap_small by exact Hnext.
  assert (Hfresh : ~ In (nextID s) (map ID (users s))).
  { intros Hin. apply in_map_iff in Hin as (u & Hid & Hin).
    rewrite List.Forall_forall in Hall. specialize (Hall u Hin). lia. }
  split; [reflexivity | split; [reflexivity | split; [reflexivity |]]].
  split; [| split].
  - split; cbn [users nextID].
    + rewrite map_app. cbn [map ID]. apply NoDup_app. split; [exact Hnd |].
      split; [| apply NoDup_singleton].
      intros x Hx Hx'. apply list_elem_of_singleton in Hx'. subst x.
      apply Hfresh. now apply list_elem_of_In.
    + apply Forall_app. split.
      * eapply Forall_impl; [exact Hall |]. cbn. intros; lia.
      * constructor; [cbn; lia | constructor].
  - rewrite findUser_app. apply findUser_None in Hfresh. rewrite Hfresh.
    cbn [ID]. now rewrite Z.eqb_refl.
  - intros id Hne. rewrite findUser_app. cbn [ID].
    destruct (findUser id (users s)); [reflexivity |].
    destruct (Z.eqb_spec (nextID s) id); [congruence | reflexivity].
Qed.

Lemma Create_assigns_fresh_id_witness :
  let created := Create NewUserService
                        (mkCreateUserRequest "Ana" "ana@example.com" 41) in
  snd created = mkUser 3 "Ana" "ana@example.com" 41 true /\
  GetByID (fst created) 3 = Some (snd created) /\
  wellKept (fst created).
Proof.
  intros created.
  assert (Hkept : wellKept NewUserService).
  { split; cbn.
    - apply (bool_decide_unpack _). vm_compute. exact I.
    - repeat constructor. }
  destruct (Create_assigns_fresh_id NewUserService
              (mkCreateUserRequest "Ana" "ana@example.com" 41) Hkept
              ltac:(cbn; lia)) as (Huser & _ & _ & Hk & Hget & _).
  split; [exact Huser | split; [exact Hget | exact Hk]].
Defined.

(** *** Delete *)

Lemma deleteUser_None (id : Z) (us : list User) :
  deleteUser id us = None <-> findUser id us = None.
Proof.
  induction us as [| user rest IH]; cbn; [tauto |].
  destruct (ID user =? id)%Z; [split; discriminate |].
  destruct (deleteUser id rest); split; try discriminate; try tauto.
  - intros H. apply IH in H. discriminate.
Qed.

Lemma deleteUser_Some (id : Z) (us us' : list User) :
  deleteUser id us = Some us' ->
  length us = S (length us') /\
  (forall x, In x us' -> In x us) /\
  (forall id', id' <> id -> findUser id' us' = findUser id' us) /\
  (NoDup (map ID us) -> NoDup (map ID us') /\ findUser id us' = None).
Proof.
  revert us'. induction us as [| user rest IH]; intros us'; cbn; [discriminate |].
  destruct (Z.eqb_spec (ID user) id) as [E | N].
  - intros H. injection H as <-. repeat split.
    + intros x Hx. now right.
    + intros id' Hne. destruct (Z.eqb_spec (ID user) id'); [congruence | reflexivity].
    + now apply NoDup_cons in H as [_ H].
    + apply NoDup_cons in H as [H _]. apply findUser_None.
      rewrite <- E. now rewrite <- list_elem_of_In.
  - destruct (deleteUser id rest) as [rest' |]; [| discriminate].
    intros H. injection H as <-.
    destruct (IH rest' eq_refl) as (Hlen & Hsub & Hother & Hnd).
    repeat split.
    + cbn. now rewrite Hlen.
    + intros x [-> | Hx]; [now left | right; now apply Hsub].
    + intros id' Hne. cbn. destruct (ID user =? id')%Z; [reflexivity | now apply Hother].
    + apply NoDup_cons in H as [Hfresh H]. apply NoDup_cons. split; [| now apply Hnd].
      intros Hin. apply Hfresh. apply list_elem_of_In in Hin.
      apply in_map_iff in Hin as (x & Hid & Hx).
      apply list_elem_of_In, in_map_iff. exists x. split; [exact Hid | now apply Hsub].
    + apply NoDup_cons in H as [_ H]. cbn.
      destruct (Z.eqb_spec (ID user) id); [contradiction | now apply Hnd].
Qed.

(** X22. [Delete] answers true exactly when [GetByID] finds the ID, and
    otherwise changes nothing. When it answers true there is one user
    less, every other ID is looked up as before and the next ID is kept;
    with distinct IDs the ID is found no more, and the IDs stay distinct
    and below the next ID, so a deleted ID is never given again. *)
Theorem Delete_removes_the_user (s : UserService) (id : Z) :
  let s' := fst (Delete s id) in
  (snd (Delete s id) = true <-> is_Some (GetByID s id)) /\
  (snd (Delete s id) = false -> s' = s) /\
  (snd (Delete s id) = true ->
   length (users s) = S (length (users s')) /\ nextID s' = nextID s /\
   (forall id', id' <> id -> GetByID s' id' = GetByID s id') /\
   (wellKept s -> wellKept s' /\ GetByID s' id = None)).
Proof.
  intros s'. subst s'. unfold Delete, GetByID.
  pose proof (deleteUser_None id (users s)) as Hnone.
  pose proof (deleteUser_Some id (users s)) as Hsome.
  destruct (deleteUser id (users s)) as [us' |]; cbn [fst snd users nextID].
  - destruct (Hsome us' eq_refl) as (Hlen & Hsub & Hother & Hnd).
    split; [| split; [discriminate |]].
    + split; [intros _ | reflexivity].
      destruct (findUser id (users s)); [eauto |].
      discriminate (proj2 Hnone eq_refl).
    + intros _. split; [exact Hlen | split; [reflexivity | split; [exact Hother |]]].
      intros [Hd Hall]. destruct (Hnd Hd) as [Hd' Hgone].
      split; [split; [exact Hd' |] | exact Hgone].
      cbn [users nextID]. rewrite List.Forall_forall in *.
      intros x Hx. apply Hall, Hsub, Hx.
  - split; [| split; [reflexivity | discriminate]].
    split; [discriminate |]. intros [x Hx].
    rewrite (proj1 Hnone eq_refl) in Hx. discriminate.
Qed.

Lemma Delete_removes_the_user_witness :
  Delete NewUserService 1
  = (mkUserService [mkUser 2 "María García" "maria@example.com" 30 true] 3, true)
  /\ GetByID (fst (Delete NewUserService 1)) 2 = GetByID NewUserService 2.
Proof.
  split; [reflexivity |].
  destruct (Delete_removes_the_user NewUserService 1) as (_ & _ & H).
  destruct (H eq_refl) as (_ & _ & Hother & _).
  apply Hother. discriminate.
Defined.

(** *** Update *)

Lemma updated_fields (req : UpdateUserRequest) (user : User) :
  ID (updated req user) = ID user /\
  Name (updated req user) = default (Name user) (u_Name req) /\
  Email (updated req user) = default (Email user) (u_Email req) /\
  Age (updated req user) = default (Age user) (u_Age req) /\
  IsActive (updated req user) = default (IsActive user) (u_IsActive req).
Proof.
  unfold updated.
  destruct (u_Name req), (u_Email req), (u_Age req), (u_IsActive req);
    repeat split.
Qed.

Lemma updateUser_None (id : Z) (req : UpdateUserRequest) (us : list User) :
  updateUser id req us = None <-> findUser id us = None.
Proof.
  induction us as [| user rest IH]; cbn; [tauto |].
  destruct (ID user =? id)%Z; [split; discriminate |].
  destruct (updateUser id req rest) as [[rest' found] |]; split;
    try discriminate; try tauto.
  intros H. apply IH in H. discriminate.
Qed.

Lemma updateUser_Some (id : Z) (req : UpdateUserRequest) (us us' : list User)
      (found : User) :
  updateUser id req us = Some (us', found) ->
  (exists original, findUser id us = Some original /\ found = updated req original) /\
  map ID us' = map ID us /\
  findUser id us' = Some found /\
  (forall id', id' <> id -> findUser id' us' = findUser id' us).
Proof.
  revert us'. induction us as [| user rest IH]; intros us'; cbn; [discriminate |].
  destruct (Z.eqb_spec (ID user) id) as [E | N].
  - intros H. injection H as <- <-.
    pose proof (updated_fields req user) as (Hid & _).
    repeat split.
    + eauto.
    + cbn. now rewrite Hid.
    + cbn. rewrite Hid. destruct (Z.eqb_spec (ID user) id); [reflexivity | contradiction].
    + intros id' Hne. cbn. rewrite Hid.
      destruct (Z.eqb_spec (ID user) id'); [congruence | reflexivity].
  - destruct (updateUser id req rest) as [[rest' found'] |]; [| discriminate].
    intros H. injection H as <- <-.
    destruct (IH rest' eq_refl) as (Horig & Hids & Hfound & Hother).
    repeat split.
    + exact Horig.
    + cbn. now rewrite Hids.
    + cbn. destruct (Z.eqb_spec (ID user) id); [contradiction | exact Hfound].
    + intros id' Hne. cbn. destruct (ID user =? id')%Z; [reflexivity | now apply Hother].
Qed.

(** X23. [Update] finds a user exactly when [GetByID] does and otherwise
    changes nothing. The user it returns is the first one with the ID, in
    which each field given in the request has the value given and each
    field left nil, and the ID, keep theirs; it is what [GetByID] finds
    afterwards. The IDs of the service, in order, and the next ID are
    unchanged, and so is the lookup of every other ID. *)
Theorem Update_changes_the_given_fields (s : UserService) (id : Z)
        (req : UpdateUserRequest) :
  let s' := fst (Update s id req) in
  (snd (Update s id req) = None <-> GetByID s id = None) /\
  (snd (Update s id req) = None -> s' = s) /\
  (forall found,
     snd (Update s id req) = Some found ->
     (exists original,
        GetByID s id = Some original /\ ID found = ID original /\
        Name found = default (Name original) (u_Name req) /\
        Email found = default (Email original) (u_Email req) /\
        Age found = default (Age original) (u_Age req) /\
        IsActive found = default (IsActive original) (u_IsActive req)) /\
     GetByID s' id = Some found /\
     map ID (users s') = map ID (users s) /\ nextID s' = nextID s /\
     (forall id', id' <> id -> GetByID s' id' = GetByID s id')).
Proof.
  intros s'. subst s'. unfold Update, GetByID.
  pose proof (updateUser_None id req (users s)) as Hnone.
  pose proof (updateUser_Some id req (users s)) as Hsome.
  destruct (updateUser id req (users s)) as [[us' found] |];
    cbn [fst snd users nextID].
  - destruct (Hsome us' found eq_refl) as ((original & Horig & ->) & Hids & Hfound & Hother).
    split; [| split; [discriminate |]].
    + split; [discriminate |]. intros H. apply Hnone in H. discriminate.
    + intros found' H. injection H as <-.
      split; [| split; [exact Hfound | split; [exact Hids | split;
                                                 [reflexivity | exact Hother]]]].
      exists original. split; [exact Horig |]. apply updated_fields.
  - split; [| split; [reflexivity | discriminate]].
    split; [intros _; now apply Hnone | reflexivity].
Qed.

Lemma Update_changes_the_given_fields_witness :
  Update NewUserService 2 (mkUpdateUserRequest None None (Some 31%Z) (Some false))
  = (mkUserService
       [ mkUser 1 "Juan Pérez" "juan@example.com" 25 true;
         mkUser 2 "María García" "maria@example.com" 31 false ] 3,
     Some (mkUser 2 "María García" "maria@example.com" 31 false)) /\
  GetByID (fst (Update NewUserService 2
                  (mkUpdateUserRequest None None (Some 31%Z) (Some false)))) 2
  = Some (mkUser 2 "María García" "maria@example.com" 31 false).
Proof.
  split; [reflexivity |].
  destruct (Update_changes_the_given_fields NewUserService 2
              (mkUpdateUserRequest None None (Some 31%Z) (Some false)))
    as (_ & _ & H).
  exact (proj1 (proj2 (H _ eq_refl))).
Defined.


(** *** Paginated and the listing handler *)

Lemma Paginated_small (items : list User) (total page pageSize : Z) :
  (1 <= pageSize)%Z -> (0 <= total)%Z -> (total + pageSize < 2 ^ 63)%Z ->
  Paginated items total page pageSize
  = PaginatedOK items total page pageSize ((total + pageSize - 1) / pageSize)%Z.
Proof.
  intros Hsize Htotal Hsmall. unfold Paginated.
  destruct (Z.eqb_spec pageSize 0) as [E | _]; [lia |].
  rewrite (wrap_small (total + pageSize)) by lia.
  rewrite (wrap_small (total + pageSize - 1)) by lia.
  rewrite Z.quot_div_nonneg by lia.
  assert (0 <= (total + pageSize - 1) / pageSize <= total + pageSize - 1)%Z.
  { split; [apply Z.div_pos; lia |].
    apply Z.div_le_upper_bound; [lia | nia]. }
  rewrite wrap_small by lia. reflexivity.
Qed.

Lemma filter_loop (active : bool) (us acc : list User) :
  fold_left (fun filteredUsers user =>
               if Bool.eqb (IsActive user) active
               then filteredUsers ++ [user] else filteredUsers) us acc
  = acc ++ List.filter (fun user => Bool.eqb (IsActive user) active) us.
Proof.
  revert acc. induction us as [| user rest IH]; intros acc; cbn [fold_left List.filter].
  - now rewrite app_nil_r.
  - rewrite IH. destruct (Bool.eqb (IsActive user) active); [| reflexivity].
    now rewrite <- app_assoc.
Qed.

Lemma firstn_skipn_app (a b : nat) (us : list User) :
  firstn a us ++ firstn b (skipn a us) = firstn (a + b) us.
Proof.
  revert us. induction a as [| a IH]; intros us; [reflexivity |].
  destruct us as [| user rest]; cbn [firstn skipn Nat.add app].
  - now rewrite firstn_nil.
  - now rewrite IH.
Qed.

Lemma pageOf_items (us : list User) (page pageSize : Z) :
  (1 <= page)%Z -> (1 <= pageSize)%Z ->
  pageOf us page pageSize
  = firstn (Z.to_nat pageSize) (skipn ((Z.to_nat page - 1) * Z.to_nat pageSize) us).
Proof.
  intros Hpage Hsize. unfold pageOf. f_equal. f_equal. nia.
Qed.

Lemma pages_concat (us : list User) (n pages : nat) :
  concat (map (fun k => firstn n (skipn (k * n) us)) (seq 0 pages))
  = firstn (pages * n) us.
Proof.
  induction pages as [| pages IH]; [reflexivity |].
  rewrite seq_S, map_app, concat_app, IH. cbn [map concat Nat.add].
  rewrite app_nil_r, firstn_skipn_app. f_equal. lia.
Qed.

Section Strconv.

Variable Atoi : string -> option Z.
Variable ParseBool : string -> option bool.

(** The value of the "active" query and the filter it asks for: no
    filter when the value is empty (or the key absent), the flag it
    parses to otherwise. *)
Let asks (activeQuery : option string) (active : option bool) : Prop :=
  match active with
  | None => default "" activeQuery = ""
  | Some flag =>
      default "" activeQuery <> "" /\ ParseBool (default "" activeQuery) = Some flag
  end.

Lemma GetUsers_paginates (service : UserService)
      (pageQuery pageSizeQuery activeQuery : option string)
      (page pageSize : Z) (active : option bool) :
  Atoi (default "1" pageQuery) = Some page ->
  Atoi (default "10" pageSizeQuery) = Some pageSize ->
  (1 <= page)%Z -> (1 <= pageSize <= 100)%Z ->
  asks activeQuery active ->
  let us := listed active (GetAll service) in
  let total := Z.of_nat (length us) in
  let start := wrap (wrap (page - 1) * pageSize) in
  let end_ := wrap (start + pageSize) in
  GetUsers Atoi ParseBool service pageQuery pageSizeQuery activeQuery
  = if (total <=? start)%Z then Paginated [] total page pageSize
    else match slice us start (if (total <? end_)%Z then total else end_) with
         | Some items => Paginated items total page pageSize
         | None => Panics
         end.
Proof.
  intros Hpage Hsize Hp Hs Hasks us total start end_. subst us total start end_.
  unfold GetUsers. rewrite Hpage.
  destruct (Z.ltb_spec page 1) as [? | _]; [lia |]. rewrite Hsize.
  destruct (Z.ltb_spec pageSize 1) as [? | _]; [lia |].
  destruct (Z.ltb_spec 100 pageSize) as [? | _]; [lia |].
  cbn [orb]. destruct active as [flag |]; cbn [asks listed] in *.
  - destruct Hasks as [Hne Hflag]. apply String.eqb_neq in Hne. rewrite Hne.
    cbn [negb]. rewrite Hflag, filter_loop. reflexivity.
  - rewrite Hasks. reflexivity.
Qed.

Lemma GetUsers_page (service : UserService)
      (pageQuery pageSizeQuery activeQuery : option string)
      (page pageSize : Z) (active : option bool) :
  Atoi (default "1" pageQuery) = Some page ->
  Atoi (default "10" pageSizeQuery) = Some pageSize ->
  (1 <= page)%Z -> (1 <= pageSize <= 100)%Z ->
  asks activeQuery active ->
  let us := listed active (GetAll service) in
  let total := Z.of_nat (length us) in
  (page * pageSize < 2 ^ 63)%Z -> (total + pageSize < 2 ^ 63)%Z ->
  GetUsers Atoi ParseBool service pageQuery pageSizeQuery activeQuery
  = PaginatedOK (pageOf us page pageSize) total page pageSize
                ((total + pageSize - 1) / pageSize)%Z.
Proof.
  intros Hpage Hsize Hp Hs Hasks us total Hsmall Htotal.
  rewrite (GetUsers_paginates service _ _ _ page pageSize active Hpage Hsize Hp Hs Hasks).
  fold us total.
  rewrite (wrap_small (page - 1)) by nia.
  rewrite (wrap_small ((page - 1) * pageSize)) by nia.
  rewrite (wrap_small ((page - 1) * pageSize + pageSize)) by nia.
  unfold pageOf. set (start := ((page - 1) * pageSize)%Z).
  assert (Hstart : (0 <= start)%Z) by (subst start; nia).
  destruct (Z.leb_spec total start) as [Hbeyond | Hwithin].
  - rewrite skipn_all2 by (subst total; lia). rewrite firstn_nil.
    apply Paginated_small; lia.
  - assert (Hrest : length (skipn (Z.to_nat start) us)
                    = Z.to_nat (total - start)).
    { rewrite length_skipn. subst total. lia. }
    unfold slice. destruct (Z.ltb_spec total (start + pageSize)) as [Hlast | Hfull].
    + destruct (Z.leb_spec 0 start); [| lia].
      destruct (Z.leb_spec start total); [| lia].
      destruct (Z.leb_spec total (Z.of_nat (length us))); [| subst total; lia].
      cbn [andb]. rewrite firstn_all2 by lia.
      rewrite (firstn_all2 (n := Z.to_nat pageSize)) by lia.
      apply Paginated_small; lia.
    + destruct (Z.leb_spec 0 start); [| lia].
      destruct (Z.leb_spec start (start + pageSize)); [| lia].
      destruct (Z.leb_spec (start + pageSize) (Z.of_nat (length us)));
        [| subst total; lia].
      cbn [andb]. replace (start + pageSize - start)%Z with pageSize by lia.
      apply Paginated_small; lia.
Qed.

(** X24. With a page of 1 or more, a page size from 1 to 100 and a
    filter that parses, and while neither page * page size nor total +
    page size leaves the range of [int], [GetUsers] answers with the page
    asked for: the (page - 1) * page size first listed users are skipped
    and the page size next ones, or those that are left, are the items;
    they are no more than the page size, none beyond the last page, and
    total is the number of listed users, all of them or those whose
    IsActive is the flag asked for. *)
Theorem GetUsers_returns_the_page (service : UserService)
        (pageQuery pageSizeQuery activeQuery : option string)
        (page pageSize : Z) (active : option bool) :
  Atoi (default "1" pageQuery) = Some page ->
  Atoi (default "10" pageSizeQuery) = Some pageSize ->
  (1 <= page)%Z -> (1 <= pageSize <= 100)%Z ->
  asks activeQuery active ->
  let us := listed active (GetAll service) in
  let total := Z.of_nat (length us) in
  (page * pageSize < 2 ^ 63)%Z -> (total + pageSize < 2 ^ 63)%Z ->
  exists items totalPages,
    GetUsers Atoi ParseBool service pageQuery pageSizeQuery activeQuery
    = PaginatedOK items total page pageSize totalPages /\
    items = firstn (Z.to_nat pageSize)
                   (skipn (Z.to_nat ((page - 1) * pageSize)) us) /\
    (Z.of_nat (length items) <= pageSize)%Z /\
    (Z.of_nat (length items)
     = Z.max 0 (Z.min pageSize (total - (page - 1) * pageSize)))%Z /\
    ((totalPages - 1) * pageSize < total <= totalPages * pageSize)%Z /\
    ((totalPages < page)%Z -> items = []).
Proof.
  intros Hpage Hsize Hp Hs Hasks us total Hsmall Htotal.
  exists (pageOf us page pageSize), ((total + pageSize - 1) / pageSize)%Z.
  split; [now apply GetUsers_page |]. split; [reflexivity |].
  assert (Hlen : (Z.of_nat (length (pageOf us page pageSize))
                  = Z.max 0 (Z.min pageSize (total - (page - 1) * pageSize)))%Z).
  { unfold pageOf. rewrite length_firstn, length_skipn. subst total. nia. }
  assert (Hceil : ((((total + pageSize - 1) / pageSize) - 1) * pageSize < total
                   <= ((total + pageSize - 1) / pageSize) * pageSize)%Z).
  { pose proof (Z.div_mod (total + pageSize - 1) pageSize ltac:(lia)) as Hdm.
    pose proof (Z.mod_pos_bound (total + pageSize - 1) pageSize ltac:(lia)) as Hm.
    nia. }
  split; [lia | split; [exact Hlen | split; [exact Hceil |]]].
  intros Hlate. apply length_zero_iff_nil.
  assert (total - (page - 1) * pageSize <= 0)%Z by nia. lia.
Qed.

(** X25. When (page - 1) * page size leaves the range of [int] and wraps
    to a negative number, [GetUsers] does not answer: the slice
    expression has a negative low bound and panics. *)
Theorem GetUsers_overflow_panics (service : UserService)
        (pageQuery pageSizeQuery activeQuery : option string)
        (page pageSize : Z) (active : option bool) :
  Atoi (default "1" pageQuery) = Some page ->
  Atoi (default "10" pageSizeQuery) = Some pageSize ->
  (1 <= page)%Z -> (1 <= pageSize <= 100)%Z ->
  asks activeQuery active ->
  (wrap (wrap (page - 1) * pageSize) < 0)%Z ->
  GetUsers Atoi ParseBool service pageQuery pageSizeQuery activeQuery = Panics.
Proof.
  intros Hpage Hsize Hp Hs Hasks Hneg.
  rewrite (GetUsers_paginates service _ _ _ page pageSize active Hpage Hsize Hp Hs Hasks).
  cbv zeta.
  destruct (Z.leb_spec (Z.of_nat (length (listed active (GetAll service))))
                       (wrap (wrap (page - 1) * pageSize))) as [? | _]; [lia |].
  unfold slice.
  destruct (Z.leb_spec 0 (wrap (wrap (page - 1) * pageSize))) as [? | _]; [lia |].
  reflexivity.
Qed.

(** X26. Asking for the pages 1, 2, ... up to the number of pages that
    [GetUsers] reports, with one page size and one filter, gives every
    listed user once, in the order of the service: the items of the
    answers, one after the other, are the listed users. *)
Theorem pages_cover_the_listing (service : UserService)
        (pageQuery : nat -> option string)
        (pageSizeQuery activeQuery : option string)
        (pageSize : Z) (active : option bool) :
  Atoi (default "10" pageSizeQuery) = Some pageSize ->
  (1 <= pageSize <= 100)%Z ->
  asks activeQuery active ->
  let us := listed active (GetAll service) in
  let total := Z.of_nat (length us) in
  (total + pageSize < 2 ^ 63)%Z ->
  (forall k, (Z.of_nat k * pageSize < total)%Z ->
             Atoi (default "1" (pageQuery k)) = Some (Z.of_nat k + 1)%Z) ->
  exists (pages : list (list User)) (totalPages : Z),
    Z.of_nat (length pages) = totalPages /\
    (forall k, (k < length pages)%nat ->
       GetUsers Atoi ParseBool service (pageQuery k) pageSizeQuery activeQuery
       = PaginatedOK (nth k pages []) total (Z.of_nat k + 1) pageSize totalPages) /\
    concat pages = us.
Proof.
  intros Hsize Hs Hasks us total Htotal Hquery.
  set (totalPages := ((total + pageSize - 1) / pageSize)%Z).
  assert (Hceil : ((totalPages - 1) * pageSize < total <= totalPages * pageSize)%Z).
  { subst totalPages.
    pose proof (Z.div_mod (total + pageSize - 1) pageSize ltac:(lia)) as Hdm.
    pose proof (Z.mod_pos_bound (total + pageSize - 1) pageSize ltac:(lia)) as Hm.
    nia. }
  assert (Hpos : (0 <= totalPages)%Z) by (apply Z.div_pos; lia).
  exists (map (fun k => firstn (Z.to_nat pageSize) (skipn (k * Z.to_nat pageSize) us))
              (seq 0 (Z.to_nat totalPages))), totalPages.
  split; [rewrite length_map, length_seq; lia |]. split.
  - intros k Hk. rewrite length_map, length_seq in Hk.
    assert (Hin : (Z.of_nat k * pageSize < total)%Z) by nia.
    rewrite (GetUsers_page service _ _ _ (Z.of_nat k + 1) pageSize active
                           (Hquery k Hin) Hsize ltac:(lia) Hs Hasks)
      by (fold us total; nia).
    fold us total totalPages. f_equal.
    rewrite pageOf_items by lia.
    rewrite (nth_indep _ [] (firstn (Z.to_nat pageSize)
                                    (skipn (0 * Z.to_nat pageSize) us)))
      by (rewrite length_map, length_seq; exact Hk).
    rewrite (map_nth (fun k => firstn (Z.to_nat pageSize)
                                      (skipn (k * Z.to_nat pageSize) us))).
    rewrite seq_nth by exact Hk. do 3 f_equal. lia.
  - rewrite pages_concat. apply firstn_all2. subst total. nia.
Qed.

End Strconv.

(** X27. [Paginated] reports as number of pages the least number of
    pages of the given size that hold [total] items, while total + page
    size stays in the range of [int]; with a page size of 0 the division
    panics. *)
Theorem Paginated_counts_the_pages (items : list User) (total page pageSize : Z) :
  (pageSize = 0%Z -> Paginated items total page pageSize = Panics) /\
  ((1 <= pageSize)%Z -> (0 <= total)%Z -> (total + pageSize < 2 ^ 63)%Z ->
   exists totalPages,
     Paginated items total page pageSize
     = PaginatedOK items total page pageSize totalPages /\
     (total <= totalPages * pageSize)%Z /\
     (forall n, (total <= n * pageSize)%Z -> (totalPages <= n)%Z)).
Proof.
  split.
  - intros ->. reflexivity.
  - intros Hsize Htotal Hsmall.
    exists ((total + pageSize - 1) / pageSize)%Z.
    split; [now apply Paginated_small |].
    pose proof (Z.div_mod (total + pageSize - 1) pageSize ltac:(lia)) as Hdm.
    pose proof (Z.mod_pos_bound (total + pageSize - 1) pageSize ltac:(lia)) as Hm.
    split; [nia |]. intros n Hn. nia.
Qed.


Lemma GetUsers_returns_the_page_witness :
  GetUsers Query.strconv_Atoi Query.strconv_ParseBool NewUserService
           (Some "2") (Some "1") (Some "true")
  = PaginatedOK [mkUser 2 "María García" "maria@example.com" 30 true] 2 2 1 2.
Proof.
  assert (Hasks : default "" (Some "true") <> "" /\
                  Query.strconv_ParseBool (default "" (Some "true")) = Some true)
    by (split; [discriminate | reflexivity]).
  assert (Hpage : (2 * 1 < 2 ^ 63)%Z) by (cbn; lia).
  assert (Htotal : (Z.of_nat (length (listed (Some true) (GetAll NewUserService))) + 1
                    < 2 ^ 63)%Z) by (cbn; lia).
  destruct (GetUsers_returns_the_page Query.strconv_Atoi Query.strconv_ParseBool
              NewUserService (Some "2") (Some "1") (Some "true") 2 1 (Some true)
              eq_refl eq_refl ltac:(lia) ltac:(lia) Hasks Hpage Htotal)
    as (items & totalPages & Heq & Hitems & _ & _ & Hceil & _).
  rewrite Heq, Hitems. cbn in Hceil. assert (totalPages = 2%Z) as -> by lia.
  reflexivity.
Defined.

Lemma GetUsers_overflow_panics_witness :
  GetUsers Query.strconv_Atoi Query.strconv_ParseBool NewUserService
           (Some "4611686018427387905") (Some "2") None
  = Panics.
Proof.
  apply (GetUsers_overflow_panics Query.strconv_Atoi Query.strconv_ParseBool
           NewUserService (Some "4611686018427387905") (Some "2") None
           4611686018427387905 2 None).
  - reflexivity.
  - reflexivity.
  - lia.
  - lia.
  - reflexivity.
  - vm_compute. reflexivity.
Defined.

Lemma pages_cover_the_listing_witness :
  let pageQuery (k : nat) :=
    match k with 0 => Some "1" | 1 => Some "2" | _ => Some "3" end%nat in
  exists (pages : list (list User)) (totalPages : Z),
    Z.of_nat (length pages) = totalPages /\
    (forall k, (k < length pages)%nat ->
       GetUsers Query.strconv_Atoi Query.strconv_ParseBool NewUserService
                (pageQuery k) (Some "1") None
       = PaginatedOK (nth k pages []) 2 (Z.of_nat k + 1) 1 totalPages) /\
    concat pages = users NewUserService.
Proof.
  intros pageQuery.
  apply (pages_cover_the_listing Query.strconv_Atoi Query.strconv_ParseBool
           NewUserService pageQuery (Some "1") None 1 None).
  - reflexivity.
  - lia.
  - reflexivity.
  - cbn. lia.
  - intros k Hk. destruct k as [| [| k]]; [reflexivity | reflexivity |].
    cbn [listed GetAll NewUserService users length] in Hk. lia.
Defined.

Lemma Paginated_counts_the_pages_witness :
  Paginated [] 25 1 10 = PaginatedOK [] 25 1 10 3 /\
  Paginated [] 25 1 0 = Panics.
Proof.
  destruct (Paginated_counts_the_pages [] 25 1 10) as [_ Hpages].
  destruct (Hpages ltac:(lia) ltac:(lia) ltac:(cbn; lia))
    as (totalPages & Heq & Hup & Hleast).
  split.
  - rewrite Heq. pose proof (Hleast 3%Z ltac:(lia)).
    assert (totalPages = 3%Z) as -> by lia. reflexivity.
  - exact (proj1 (Paginated_counts_the_pages [] 25 1 0) eq_refl).
Defined.

(** A page number whose offset wraps to 0 is answered as page 1 is. *)
Example page_number_wraps :
  GetUsers Query.strconv_Atoi Query.strconv_ParseBool NewUserService
           (Some "288230376151711745") (Some "64") None
  = PaginatedOK (users NewUserService) 2 288230376151711745 64 1.
Proof. vm_compute. reflexivity. Qed.

End UsersTheory.
